(** * SkyDNS request handling (server.go): a shallow embedding

    The embedding follows [server.go]: the request router [ServeDNS], the
    forwarding client [ServeDNSForward], the address resolver
    [AddressRecords] with its round-robin reordering, the directory walk
    [loopAddressNodes], [SRVRecords], [SOA] and [questionToPath].

    Go integers are [Z]; conversions to [uint32] and [uint16] are written
    out as remainders, and [%] is [Z.rem].  The handler's [int] values are
    slice lengths, loop counters and their small multiples, far below 2^63
    for any slice that fits in memory, so no wrap-around is written for
    [int].  Slices are lists, indexed with stdpp's lookup and insert; an
    index out of range is a Go panic.  Everything the handler
    does to the outside (the etcd store, the upstream exchange, the clock,
    [dns.Id], the response writer) goes through a small monad that threads
    call counters and an event log. *)

From Stdlib Require Import ZArith String Ascii List Lia Bool.
From stdpp Require Import base list strings.

Local Open Scope string_scope.
Local Open Scope Z_scope.
Local Open Scope list_scope.

(** ** Go's [strings] package, on byte strings *)
Module GoStrings.

(** [strings.ToLower], on ASCII: the letters A-Z are mapped to a-z, every
    other byte is kept.  Names with bytes above 127 are outside this
    model. *)
Definition lowerByte (c : ascii) : ascii :=
  let n := nat_of_ascii c in
  if ((65 <=? n)%nat && (n <=? 90)%nat)%bool then ascii_of_nat (n + 32) else c.

Fixpoint ToLower (s : string) : string :=
  match s with
  | EmptyString => EmptyString
  | String c r => String (lowerByte c) (ToLower r)
  end.

(** [strings.HasSuffix]:
    [len(s) >= len(suffix) && s[len(s)-len(suffix):] == suffix]. *)
Definition HasSuffix (s suffix : string) : bool :=
  let n := String.length s in
  let k := String.length suffix in
  ((k <=? n)%nat && String.eqb (substring (n - k) k s) suffix)%bool.

(** [strings.Join]. *)
Definition Join (l : list string) (sep : string) : string := String.concat sep l.

(** [strings.Split] for a one-byte separator: a string with [n]
    occurrences of the separator gives [n + 1] pieces. *)
Fixpoint Split (s : string) (sep : ascii) : list string :=
  match s with
  | EmptyString => [EmptyString]
  | String c r =>
      if Ascii.eqb c sep then EmptyString :: Split r sep
      else match Split r sep with
           | [] => [String c EmptyString]
           | h :: t => String c h :: t
           end
  end.

(** [strings.Contains] for a one-byte pattern. *)
Fixpoint ContainsByte (s : string) (c : ascii) : bool :=
  match s with
  | EmptyString => false
  | String d r => (Ascii.eqb d c || ContainsByte r c)%bool
  end.

End GoStrings.

(** ** Go's [net] package: addresses as byte slices *)
Module net.

(** [net.IP] is a byte slice; the nil slice is the empty list. *)
Definition IP := list Z.

Definition IPv4len : nat := 4.
Definition IPv6len : nat := 16.

Definition v4InV6Prefix : list Z := [0; 0; 0; 0; 0; 0; 0; 0; 0; 0; 255; 255].

(** [net.IPv4(a, b, c, d)]: the 16-byte form of an IPv4 address. *)
Definition IPv4 (a b c d : Z) : IP := v4InV6Prefix ++ [a; b; c; d].

Definition isZeros (p : list Z) : bool := forallb (Z.eqb 0) p.

(** [ip.To4()]. *)
Definition To4 (ip : IP) : IP :=
  if (length ip =? IPv4len)%nat then ip
  else if ((length ip =? IPv6len)%nat
           && isZeros (take 10 ip)
           && bool_decide (ip !! 10%nat = Some 255)
           && bool_decide (ip !! 11%nat = Some 255))%bool
       then take 4 (drop 12 ip)
       else [].

(** [ip.To16()]. *)
Definition To16 (ip : IP) : IP :=
  if (length ip =? IPv4len)%nat then
    match ip with
    | [a; b; c; d] => IPv4 a b c d
    | _ => []
    end
  else if (length ip =? IPv6len)%nat then ip
  else [].

(** [x != nil] on a slice. *)
Definition notNil (ip : IP) : bool :=
  match ip with [] => false | _ => true end.

End net.

(** ** The parts of [github.com/miekg/dns] the server uses *)
Module dns.

Definition TypeA : Z := 1.
Definition TypeSOA : Z := 6.
Definition TypeAAAA : Z := 28.
Definition TypeSRV : Z := 33.
Definition TypeOPT : Z := 41.
Definition TypeDNSKEY : Z := 48.
Definition TypeANY : Z := 255.
Definition ClassINET : Z := 1.
Definition OpcodeQuery : Z := 0.
Definition RcodeSuccess : Z := 0.
Definition RcodeServerFailure : Z := 2.
Definition RcodeNameError : Z := 3.

Record RR_Header := mkHeader { Name : string; Rrtype : Z; Class : Z; Ttl : Z }.

(** The resource records the handler builds or passes on.  [Other]
    stands for any record of an upstream reply. *)
Inductive RR :=
| A (Hdr : RR_Header) (addr : net.IP)
| AAAA (Hdr : RR_Header) (addr : net.IP)
| SOA (Hdr : RR_Header) (Ns Mbox : string)
      (Serial Refresh Retry Expire Minttl : Z)
| DNSKEY (Hdr : RR_Header) (key : string)
| OPT (Hdr : RR_Header)
| Other (Hdr : RR_Header) (rdata : string).

Definition Header (r : RR) : RR_Header :=
  match r with
  | A h _ | AAAA h _ | SOA h _ _ _ _ _ _ _ | DNSKEY h _ | OPT h | Other h _ => h
  end.

Definition isSOA (r : RR) : bool :=
  match r with SOA _ _ _ _ _ _ _ _ => true | _ => false end.

(** The serial of an SOA record (0 for any other record). *)
Definition soaSerial (r : RR) : Z :=
  match r with SOA _ _ _ serial _ _ _ _ => serial | _ => 0 end.

Record Question := mkQuestion { qName : string; Qtype : Z; Qclass : Z }.

Record Msg := mkMsg {
  Id : Z;
  Response : bool;
  Opcode : Z;
  Authoritative : bool;
  RecursionDesired : bool;
  RecursionAvailable : bool;
  Rcode : Z;
  Questions : list Question;  (* the field [Question] *)
  Answer : list RR;
  Ns : list RR;
  Extra : list RR
}.

(** [new(dns.Msg)]: every field at its zero value. *)
Definition newMsg : Msg :=
  mkMsg 0 false 0 false false false 0 [] [] [] [].

Definition setAuthoritative (m : Msg) (b : bool) : Msg :=
  mkMsg (Id m) (Response m) (Opcode m) b (RecursionDesired m)
        (RecursionAvailable m) (Rcode m) (Questions m) (Answer m) (Ns m) (Extra m).

Definition setRecursionAvailable (m : Msg) (b : bool) : Msg :=
  mkMsg (Id m) (Response m) (Opcode m) (Authoritative m) (RecursionDesired m)
        b (Rcode m) (Questions m) (Answer m) (Ns m) (Extra m).

Definition setAnswer (m : Msg) (l : list RR) : Msg :=
  mkMsg (Id m) (Response m) (Opcode m) (Authoritative m) (RecursionDesired m)
        (RecursionAvailable m) (Rcode m) (Questions m) l (Ns m) (Extra m).

Definition setNs (m : Msg) (l : list RR) : Msg :=
  mkMsg (Id m) (Response m) (Opcode m) (Authoritative m) (RecursionDesired m)
        (RecursionAvailable m) (Rcode m) (Questions m) (Answer m) l (Extra m).

Definition setExtra (m : Msg) (l : list RR) : Msg :=
  mkMsg (Id m) (Response m) (Opcode m) (Authoritative m) (RecursionDesired m)
        (RecursionAvailable m) (Rcode m) (Questions m) (Answer m) (Ns m) l.

(** [m.SetReply(request)]: copies the id, the RD bit and the first
    question, marks the message as a response with rcode success; the
    other fields are left as they are. *)
Definition SetReply (m request : Msg) : Msg :=
  mkMsg (Id request) true OpcodeQuery (Authoritative m) (RecursionDesired request)
        (RecursionAvailable m) RcodeSuccess
        (match Questions request with
         | q :: _ => [q]
         | [] => Questions m
         end)
        (Answer m) (Ns m) (Extra m).

(** [m.SetRcode(request, rcode)]: [SetReply], then the rcode. *)
Definition SetRcode (m request : Msg) (rcode : Z) : Msg :=
  let m := SetReply m request in
  mkMsg (Id m) (Response m) (Opcode m) (Authoritative m) (RecursionDesired m)
        (RecursionAvailable m) rcode (Questions m) (Answer m) (Ns m) (Extra m).

(** [req.IsEdns0()]: the first OPT record of the additional section. *)
Definition IsEdns0 (m : Msg) : option RR_Header :=
  match filter (fun r => Rrtype (Header r) = TypeOPT) (Extra m) with
  | r :: _ => Some (Header r)
  | [] => None
  end.

(** [opt.Do()]: the DO bit, bit 15 of the OPT record's TTL field. *)
Definition Do (opt : RR_Header) : bool := Z.testbit (Ttl opt) 15.

(** [opt.UDPSize()]: the OPT record's class field. *)
Definition UDPSize (opt : RR_Header) : Z := Class opt.

End dns.

(** ** The etcd client's nodes *)
Module etcd.

#[warnings="-register-all"]
Inductive Node := mkNode {
  Key : string;
  Value : string;
  Dir : bool;
  TTL : Z;
  Nodes : list Node
}.

End etcd.

(** ** The server, and what it runs against *)

(** The fields of [server] the request path reads. *)
Record server := mkServer {
  nameservers : list string;
  domain : string;
  PubKey : option dns.RR;
  RoundRobin : bool;
  Ttl : Z;
  MinTtl : Z
}.

(** [dns.ResponseWriter]: what the handler asks of it is whether the
    remote address is a [*net.TCPAddr]; [WriteMsg] is an event. *)
Record ResponseWriter := mkWriter { remoteIsTCP : bool }.

(** Functions the handler calls that are defined outside [server.go]:
    library functions of Go and of miekg/dns, and the server's DNSSEC
    methods [nsec] and [sign].  They are pure; each is a parameter. *)
Record Lib := mkLib {
  (** [dns.SplitDomainName]: the labels of a domain name. *)
  dns_SplitDomainName : string -> list string;
  (** [url.Parse(m)]: the [Host] of the parsed URL, [None] on error. *)
  url_Parse : string -> option string;
  (** [net.SplitHostPort(hostport)]: the host, [None] on error. *)
  net_SplitHostPort : string -> option string;
  (** [net.ParseIP]: the nil slice when the text is no address. *)
  net_ParseIP : string -> net.IP;
  (** [s.nsec(m)] and [s.sign(m, bufsize)], as functions on the message. *)
  nsec : server -> dns.Msg -> dns.Msg;
  sign : server -> dns.Msg -> Z -> dns.Msg
}.

(** What the outside answers during one request. *)
Record World := mkWorld {
  (** [s.client.Get(path, false, true)]: the node, or the error. *)
  client_Get : string -> etcd.Node + string;
  (** [s.client.GetCluster()]. *)
  client_GetCluster : list string;
  (** The value of the [k]-th call of [dns.Id()] (taken modulo 2^16). *)
  dns_Id : nat -> Z;
  (** The [k]-th [c.Exchange(req, addr)] over the given network: the
      reply, or [None] when the exchange returns an error. *)
  client_Exchange : nat -> string -> string -> option dns.Msg;
  (** [time.Now()], in seconds since the Unix epoch. *)
  time_Now : Z
}.

(** What the handler did, in order.  [EvSwap] is a ghost event: it records
    each exchange of two slice elements by the round-robin loop. *)
Inductive Event :=
| EvGet (path : string)
| EvGetCluster
| EvExchange (network addr : string)
| EvSwap (q p : Z)
| EvWriteMsg (m : dns.Msg).

Record State := mkState {
  idCalls : nat;
  exchangeCalls : nat;
  events : list Event
}.

Definition initState : State := mkState 0 0 [].

(** A call returns, panics, or (in this model only) runs out of fuel. *)
Inductive Outcome (A : Type) :=
| Return (a : A)
| GoPanic (msg : string)
| OutOfFuel.
Arguments Return {A} a.
Arguments GoPanic {A} msg.
Arguments OutOfFuel {A}.

Definition M (A : Type) : Type := State -> Outcome A * State.

Definition ret {A} (a : A) : M A := fun st => (Return a, st).

Definition bind {A B} (c : M A) (k : A -> M B) : M B := fun st =>
  match c st with
  | (Return a, st') => k a st'
  | (GoPanic msg, st') => (GoPanic msg, st')
  | (OutOfFuel, st') => (OutOfFuel, st')
  end.

Notation "'do' x <~ c ; k" := (bind c (fun x => k))
  (at level 10, x name, c at level 100, k at level 200).
Notation "'run' c ; k" := (bind c (fun _ => k))
  (at level 10, c at level 100, k at level 200).

Definition panic {A} (msg : string) : M A := fun st => (GoPanic msg, st).

Definition outOfFuel {A} : M A := fun st => (OutOfFuel, st).

Definition emit (e : Event) : M unit := fun st =>
  (Return tt, mkState (idCalls st) (exchangeCalls st) (events st ++ [e])).

(** A slice operation that panics when an index is out of range. *)
Definition orPanic {A} (o : option A) : M A :=
  match o with
  | Some a => ret a
  | None => panic "runtime error: index out of range"
  end.

Definition isEvExchange (e : Event) : bool :=
  match e with EvExchange _ _ => true | _ => false end.

Definition isEvSwap (e : Event) : bool :=
  match e with EvSwap _ _ => true | _ => false end.

Definition isStoreEvent (e : Event) : bool :=
  match e with EvGet _ | EvGetCluster => true | _ => false end.

(** ** Slices *)

(** [l[i], l[j] = l[j], l[i]]: both elements are read, then [l[i]] and
    [l[j]] are written; [None] when an index is out of range. *)
Definition swapAt {A} (l : list A) (i j : Z) : option (list A) :=
  if ((0 <=? i) && (0 <=? j))%bool then
    match l !! Z.to_nat i, l !! Z.to_nat j with
    | Some x, Some y => Some (<[Z.to_nat j := x]> (<[Z.to_nat i := y]> l))
    | _, _ => None
    end
  else None.

Definition len {A} (l : list A) : Z := Z.of_nat (length l).

(** [uint32(x)] and [uint16(x)]. *)
Definition uint32 (x : Z) : Z := x mod 2 ^ 32.
Definition uint16 (x : Z) : Z := x mod 2 ^ 16.

(** ** server.go *)

(** The loop of [questionToPath]:
    [for i, j := 0, len(l)-1; i < j; i, j = i+1, j-1 { l[i], l[j] = l[j], l[i] }].
    [None] when the fuel runs out or an index is out of range. *)
Fixpoint reverseLoop (fuel : nat) (i j : Z) (l : list string) : option (list string) :=
  match fuel with
  | O => None
  | S fuel' =>
      if i <? j then
        match swapAt l i j with
        | Some l' => reverseLoop fuel' (i + 1) (j - 1) l'
        | None => None
        end
      else Some l
  end.

Section Server.

Context (lib : Lib) (world : World).

(** *** Effects *)

(** [dns.Id()]: the next value of the generator, a [uint16]. *)
Definition dnsId : M Z := fun st =>
  (Return (uint16 (dns_Id world (idCalls st))),
   mkState (S (idCalls st)) (exchangeCalls st) (events st)).

Definition clientGet (path : string) : M (etcd.Node + string) :=
  run emit (EvGet path); ret (client_Get world path).

Definition clientGetCluster : M (list string) :=
  run emit EvGetCluster; ret (client_GetCluster world).

Definition clientExchange (network addr : string) : M (option dns.Msg) := fun st =>
  (Return (client_Exchange world (exchangeCalls st) network addr),
   mkState (idCalls st) (S (exchangeCalls st))
           (events st ++ [EvExchange network addr])).

Definition WriteMsg (m : dns.Msg) : M unit := emit (EvWriteMsg m).

(** *** [SOA] *)

(** [time.Now().Truncate(time.Hour).Unix()] for a clock reading [now]. *)
Definition truncateHour (now : Z) : Z := now - now mod 3600.

Definition SOAat (s : server) (now : Z) : dns.RR :=
  dns.SOA (dns.mkHeader (domain s) dns.TypeSOA dns.ClassINET (Ttl s))
          ("master." +:+ domain s)
          ("hostmaster." +:+ domain s)
          (uint32 (truncateHour now))
          28800 7200 604800
          (MinTtl s).

Definition SOA (s : server) : dns.RR := SOAat s (time_Now world).

(** *** [questionToPath] *)

Definition questionToPath (s : string) : option string :=
  let l := dns_SplitDomainName lib s in
  match reverseLoop (S (length l)) 0 (len l - 1) l with
  | Some l' => Some (GoStrings.Join l' "/")
  | None => None
  end.

(** *** [loopAddressNodes] *)

Definition leafA (value : string) (ttl : Z) (q : string) (t : Z) : dns.RR :=
  dns.A (dns.mkHeader q t dns.ClassINET (uint32 ttl))
        (net.To4 (net_ParseIP lib value)).

Definition leafAAAA (value : string) (ttl : Z) (q : string) (t : Z) : dns.RR :=
  dns.AAAA (dns.mkHeader q t dns.ClassINET (uint32 ttl))
           (net.To16 (net_ParseIP lib value)).

(** One turn of the [range] loop, for the node [n]. *)
Fixpoint loopAddressNode (n : etcd.Node) (q : string) (t : Z) : list dns.RR :=
  match n with
  | etcd.mkNode key value dir ttl nodes =>
      if dir then
        (fix walk (ns : list etcd.Node) : list dns.RR :=
           match ns with
           | [] => []
           | n' :: rest => loopAddressNode n' q t ++ walk rest
           end) nodes
      else if (GoStrings.HasSuffix key "/A" && (t =? dns.TypeA))%bool then
        [leafA value ttl q t]
      else if (GoStrings.HasSuffix key "/AAAA" && (t =? dns.TypeAAAA))%bool then
        [leafAAAA value ttl q t]
      else []
  end.

Fixpoint loopAddressNodes (n : list etcd.Node) (q : string) (t : Z) : list dns.RR :=
  match n with
  | [] => []
  | n' :: rest => loopAddressNode n' q t ++ loopAddressNodes rest q t
  end.

(** *** [AddressRecords] *)

(** The body of the loop over the cluster members. *)
Definition clusterMember (s : server) (q : dns.Question) (records : list dns.RR)
           (m : string) : M (list dns.RR) :=
  match url_Parse lib m with
  | None => ret records
  | Some host =>
      match net_SplitHostPort lib host with
      | None => ret records
      | Some h =>
          let ip := net_ParseIP lib h in
          if (net.notNil (net.To4 ip) && (dns.Qtype q =? dns.TypeA))%bool then
            ret (records ++ [dns.A (dns.mkHeader (dns.qName q) dns.TypeA dns.ClassINET (Ttl s))
                                   (net.To4 ip)])
          else if net.notNil (net.To16 ip) then
            ret (records ++ [dns.AAAA (dns.mkHeader (dns.qName q) dns.TypeAAAA dns.ClassINET (Ttl s))
                                      (net.To16 ip)])
          else panic "skydns: internal error"
      end
  end.

Fixpoint clusterLoop (s : server) (q : dns.Question) (records : list dns.RR)
         (members : list string) : M (list dns.RR) :=
  match members with
  | [] => ret records
  | m :: rest =>
      do records' <~ clusterMember s q records m;
      clusterLoop s q records' rest
  end.

(** The [default] case of the round-robin switch:
    [for j := 0; j < l*(int(dns.Id())%4+1); j++ { ... }].  The condition
    draws an id on every test; each turn draws two more. *)
Fixpoint roundRobinLoop (fuel : nat) (l j : Z) (records : list dns.RR) : M (list dns.RR) :=
  match fuel with
  | O => outOfFuel
  | S fuel' =>
      do c <~ dnsId;
      if j <? l * (Z.rem c 4 + 1) then
        do idq <~ dnsId;
        let q := Z.rem idq l in
        do idp <~ dnsId;
        let p := Z.rem idp l in
        let p := if q =? p then Z.rem (p + 1) l else p in
        do records' <~ orPanic (swapAt records q p);
        run emit (EvSwap q p);
        roundRobinLoop fuel' l (j + 1) records'
      else ret records
  end.

(** The body of [if s.RoundRobin { switch l := len(records); l { ... } }]. *)
Definition roundRobin (records : list dns.RR) : M (list dns.RR) :=
  let l := len records in
  if l =? 1 then ret records
  else if l =? 2 then
    do id <~ dnsId;
    if Z.rem id 2 =? 0 then
      do records' <~ orPanic (swapAt records 0 1);
      run emit (EvSwap 0 1);
      ret records'
    else ret records
  else roundRobinLoop (S (4 * length records)) l 0 records.

(** The records built from the fetched node [r.Node]. *)
Definition nodeRecords (node : etcd.Node) (q : dns.Question) : list dns.RR :=
  if negb (etcd.Dir node) then
    (if (GoStrings.HasSuffix (etcd.Key node) "/A" && (dns.Qtype q =? dns.TypeA))%bool
     then [leafA (etcd.Value node) (etcd.TTL node) (dns.qName q) (dns.Qtype q)]
     else [])
    ++
    (if (GoStrings.HasSuffix (etcd.Key node) "/AAAA" && (dns.Qtype q =? dns.TypeAAAA))%bool
     then [leafAAAA (etcd.Value node) (etcd.TTL node) (dns.qName q) (dns.Qtype q)]
     else [])
  else loopAddressNodes (etcd.Nodes node) (dns.qName q) (dns.Qtype q).

(** [AddressRecords] returns [(records, err)]; [err] is [None] for nil. *)
Definition AddressRecords (s : server) (q : dns.Question)
  : M (list dns.RR * option string) :=
  let name := GoStrings.ToLower (dns.qName q) in
  if (String.eqb name ("master." +:+ domain s) || String.eqb name (domain s))%bool then
    do members <~ clientGetCluster;
    do records <~ clusterLoop s q [] members;
    ret (records, None)
  else
    do path <~ orPanic (questionToPath name);
    do r <~ clientGet path;
    match r with
    | inr err => ret ([], Some err)
    | inl node =>
        let records := nodeRecords node q in
        do records <~ (if RoundRobin s then roundRobin records else ret records);
        ret (records, None)
    end.

(** *** [SRVRecords] *)

Definition SRVRecords (s : server) (q : dns.Question)
  : M (list dns.RR * list dns.RR * option string) :=
  let name := GoStrings.ToLower (dns.qName q) in
  do path <~ orPanic (questionToPath name);
  do r <~ clientGet path;
  match r with
  | inr err => ret ([], [], Some err)
  | inl _ => ret ([], [], None)
  end.

(** *** [ServeDNSForward] *)

(** The reply of [ServeDNSForward] when no nameserver is configured. *)
Definition noServersReply (req : dns.Msg) : dns.Msg :=
  let m := dns.newMsg in
  let m := dns.SetReply m req in
  let m := dns.SetRcode m req dns.RcodeServerFailure in
  let m := dns.setAuthoritative m false in
  dns.setRecursionAvailable m true.

(** The reply of [ServeDNSForward] when the exchanges have failed. *)
Definition exhaustedReply (req : dns.Msg) : dns.Msg :=
  let m := dns.newMsg in
  let m := dns.SetReply m req in
  dns.SetRcode m req dns.RcodeServerFailure.

(** The success branch (lines 213 to 216): the log line reads
    [req.Question[0].Name], an index out of range for a request without a
    question, before the reply is written. *)
Definition forwarded (req r : dns.Msg) : M unit :=
  do _q <~ orPanic (head (dns.Questions req));
  WriteMsg r.

(** The code from the label [Redo] on; a [goto Redo] is the recursive
    call. *)
Fixpoint forwardRedo (fuel : nat) (s : server) (network : string) (req : dns.Msg)
         (nsid try : Z) : M unit :=
  match fuel with
  | O => outOfFuel
  | S fuel' =>
      do addr <~ orPanic (if 0 <=? nsid then nameservers s !! Z.to_nat nsid else None);
      do r <~ clientExchange network addr;
      match r with
      | Some r => forwarded req r
      | None =>
          if try <? len (nameservers s) then
            forwardRedo fuel' s network req
                        (Z.rem (nsid + 1) (len (nameservers s))) (try + 1)
          else WriteMsg (exhaustedReply req)
      end
  end.

Definition ServeDNSForward (s : server) (w : ResponseWriter) (req : dns.Msg) : M unit :=
  if len (nameservers s) =? 0 then WriteMsg (noServersReply req)
  else
    let network := if remoteIsTCP w then "tcp" else "udp" in
    let nsid := Z.rem (dns.Id req) (len (nameservers s)) in
    forwardRedo (S (length (nameservers s))) s network req nsid 0.

(** *** [ServeDNS] *)

(** The deferred function: sign when a key is configured and the request
    carries an OPT record with the DO bit, then write the reply. *)
Definition signedReply (s : server) (req m : dns.Msg) : dns.Msg :=
  match PubKey s with
  | Some _ =>
      match dns.IsEdns0 req with
      | Some opt =>
          if dns.Do opt then sign lib s (nsec lib s m) (dns.UDPSize opt) else m
      | None => m
      end
  | None => m
  end.

Definition deferred (s : server) (req m : dns.Msg) : M unit :=
  WriteMsg (signedReply s req m).

(** The reply for a name that does not exist: rcode NXDOMAIN and the SOA
    record as the authority section. *)
Definition nameError (s : server) (req m : dns.Msg) : dns.Msg :=
  dns.setNs (dns.SetRcode m req dns.RcodeNameError) [SOA s].

(** Lines 172 to 186: the [SRVRecords] call and what follows it. *)
Definition serviceAnswer (s : server) (q : dns.Question) (req m : dns.Msg) : M dns.Msg :=
  do res <~ SRVRecords s q;
  match res with
  | (records, extra, err) =>
      if (bool_decide (err <> None) && (len (dns.Answer m) =? 0))%bool then
        ret (nameError s req m)
      else
        let m :=
          if ((dns.Qtype q =? dns.TypeANY) || (dns.Qtype q =? dns.TypeSRV))%bool
          then dns.setExtra (dns.setAnswer m (dns.Answer m ++ records)) (dns.Extra m ++ extra)
          else m in
        if len (dns.Answer m) =? 0 then ret (dns.setNs m [SOA s]) else ret m
  end.

(** Lines 163 to 186. *)
Definition addressAnswer (s : server) (q : dns.Question) (req m : dns.Msg) : M dns.Msg :=
  if ((dns.Qtype q =? dns.TypeA) || (dns.Qtype q =? dns.TypeAAAA))%bool then
    do res <~ AddressRecords s q;
    match res with
    | (_, Some _) => ret (nameError s req m)
    | (records, None) =>
        serviceAnswer s q req (dns.setAnswer m (dns.Answer m ++ records))
    end
  else serviceAnswer s q req m.

(** Lines 151 to 186: the reply [m] as the handler leaves it to the
    deferred function. *)
Definition resolve (s : server) (q : dns.Question) (req m : dns.Msg) : M dns.Msg :=
  let name := GoStrings.ToLower (dns.qName q) in
  if String.eqb name (domain s) then
    if dns.Qtype q =? dns.TypeDNSKEY then
      match PubKey s with
      | Some key => ret (dns.setAnswer m (dns.Answer m ++ [key]))
      | None => addressAnswer s q req m
      end
    else if dns.Qtype q =? dns.TypeSOA then ret (dns.setAnswer m [SOA s])
    else addressAnswer s q req m
  else addressAnswer s q req m.

(** The reply as the handler sets it up before resolving. *)
Definition freshReply (req : dns.Msg) : dns.Msg :=
  let m := dns.newMsg in
  let m := dns.SetReply m req in
  let m := dns.setAuthoritative m true in
  let m := dns.setRecursionAvailable m true in
  dns.setAnswer m [].

(** A deferred call runs when the body returns and also while a panic
    unwinds; the only call of the body that can panic is
    [AddressRecords], reached with the reply still as set up. *)
Definition withDefer (d : dns.Msg -> M unit) (m0 : dns.Msg) (body : M dns.Msg) : M unit :=
  fun st =>
    match body st with
    | (Return m, st') => d m st'
    | (GoPanic msg, st') => (GoPanic msg, snd (d m0 st'))
    | (OutOfFuel, st') => (OutOfFuel, st')
    end.

Definition ServeDNS (s : server) (w : ResponseWriter) (req : dns.Msg) : M unit :=
  match dns.Questions req with
  | [] => panic "runtime error: index out of range"
  | q :: _ =>
      let name := GoStrings.ToLower (dns.qName q) in
      if negb (GoStrings.HasSuffix name (domain s)) then ServeDNSForward s w req
      else
        let m := freshReply req in
        withDefer (deferred s req) m (resolve s q req m)
  end.

End Server.

(** ** The answer shuffler as the specification words it *)

(** One swap of the specification: both positions are [id mod length],
    and the second moves on by one, wrapping, when they coincide. *)
Definition specSwap (id : Z) (records : list dns.RR) : list dns.RR :=
  let l := len records in
  let q := id mod l in
  let p := id mod l in
  let p := if q =? p then (p + 1) mod l else p in
  default records (swapAt records q p).

(** The number of swaps of the specification for [length >= 3]. *)
Definition specSwapCount (id : Z) (records : list dns.RR) : Z :=
  len records * (id mod 4 + 1).

(** The reordering of the specification, a function of one id. *)
Definition specShuffle (id : Z) (records : list dns.RR) : list dns.RR :=
  let l := len records in
  if l <=? 1 then records
  else if l =? 2 then
    (if id mod 2 =? 0 then default records (swapAt records 0 1) else records)
  else Nat.iter (Z.to_nat (specSwapCount id records)) (specSwap id) records.

(** A swap of the round-robin loop on [l] records: its two positions come
    from two successive values of the id generator, the second position
    moved on by one, wrapping, when both are the same. *)
Definition drawnSwap (world : World) (l : Z) (e : Event) : Prop :=
  exists k : nat,
    let q := uint16 (dns_Id world k) mod l in
    let p := uint16 (dns_Id world (S k)) mod l in
    e = EvSwap q (if q =? p then (p + 1) mod l else p).

(** ** An environment for the examples

    Simple versions of the library functions, enough to run the handler
    on concrete requests.  The theorems below that quantify over [Lib] do
    not depend on them. *)
Module Example.

(** Modelled from the spec: [dns.SplitDomainName] is a function of
    miekg/dns; the specification's name-path mapper splits the name into
    labels on the domain separator.  The root name has no label.  Names
    with backslash escapes are outside this model. *)
Definition SplitDomainName (s : string) : list string :=
  match s with
  | EmptyString => []
  | _ =>
      let body :=
        if GoStrings.HasSuffix s "." then substring 0 (String.length s - 1) s else s in
      match body with
      | EmptyString => []
      | _ => GoStrings.Split body "."
      end
  end.

Definition digitVal (c : ascii) : option Z :=
  let n := nat_of_ascii c in
  if ((48 <=? n)%nat && (n <=? 57)%nat)%bool then Some (Z.of_nat n - 48) else None.

Definition hexVal (c : ascii) : option Z :=
  let n := nat_of_ascii c in
  if ((48 <=? n)%nat && (n <=? 57)%nat)%bool then Some (Z.of_nat n - 48)
  else if ((97 <=? n)%nat && (n <=? 102)%nat)%bool then Some (Z.of_nat n - 87)
  else if ((65 <=? n)%nat && (n <=? 70)%nat)%bool then Some (Z.of_nat n - 55)
  else None.

(** A non-empty run of digits in the given base, read as a number. *)
Fixpoint number (base : Z) (val : ascii -> option Z) (acc : Z) (s : string) : option Z :=
  match s with
  | EmptyString => Some acc
  | String c r =>
      match val c with
      | Some d => number base val (acc * base + d) r
      | None => None
      end
  end.

Definition field (base : Z) (val : ascii -> option Z) (maxLen : nat) (s : string) : option Z :=
  if ((1 <=? String.length s)%nat && (String.length s <=? maxLen)%nat)%bool
  then number base val 0 s else None.

Fixpoint fields (base : Z) (val : ascii -> option Z) (maxLen : nat) (l : list string)
  : option (list Z) :=
  match l with
  | [] => Some []
  | s :: r =>
      match field base val maxLen s, fields base val maxLen r with
      | Some x, Some xs => Some (x :: xs)
      | _, _ => None
      end
  end.

(** Dotted decimal, four fields of at most 255. *)
Definition parseIPv4 (s : string) : net.IP :=
  match fields 10 digitVal 3 (GoStrings.Split s ".") with
  | Some [a; b; c; d] =>
      if forallb (fun x => x <=? 255) [a; b; c; d] then net.IPv4 a b c d else []
  | _ => []
  end.

(** The text before and after the first [::]. *)
Fixpoint cutEllipsis (s : string) : option (string * string) :=
  match s with
  | EmptyString => None
  | String c r =>
      match r with
      | String c' r' =>
          if (Ascii.eqb c ":" && Ascii.eqb c' ":")%bool then Some (EmptyString, r')
          else match cutEllipsis r with
               | Some (a, b) => Some (String c a, b)
               | None => None
               end
      | EmptyString => None
      end
  end.

Definition groups (s : string) : option (list Z) :=
  match s with
  | EmptyString => Some []
  | _ => fields 16 hexVal 4 (GoStrings.Split s ":")
  end.

Definition groupBytes (g : list Z) : list Z :=
  flat_map (fun x => [x / 256; x mod 256]) g.

(** Eight groups of hexadecimal digits, with at most one [::]. *)
Definition parseIPv6 (s : string) : net.IP :=
  match cutEllipsis s with
  | Some (a, b) =>
      match groups a, groups b with
      | Some ga, Some gb =>
          if (length ga + length gb <=? 7)%nat
          then groupBytes (ga ++ replicate (8 - (length ga + length gb)) 0 ++ gb)
          else []
      | _, _ => []
      end
  | None =>
      match groups s with
      | Some g => if (length g =? 8)%nat then groupBytes g else []
      | None => []
      end
  end.

(** [net.ParseIP] on dotted-decimal and colon-hexadecimal text. *)
Definition ParseIP (s : string) : net.IP :=
  if net.notNil (parseIPv4 s) then parseIPv4 s else parseIPv6 s.

(** The text up to the first occurrence of [c], and the text after it. *)
Fixpoint cutByte (c : ascii) (s : string) : option (string * string) :=
  match s with
  | EmptyString => None
  | String d r =>
      if Ascii.eqb d c then Some (EmptyString, r)
      else match cutByte c r with
           | Some (a, b) => Some (String d a, b)
           | None => None
           end
  end.

(** [url.Parse] on [scheme://host/path]: the host part; a text with no
    [://] has an empty host. *)
Definition urlHost (m : string) : option string :=
  match index 0 "://" m with
  | Some 0%nat => None
  | Some n =>
      let rest := substring (n + 3) (String.length m - (n + 3)) m in
      match cutByte "/" rest with
      | Some (h, _) => Some h
      | None => Some rest
      end
  | None => Some EmptyString
  end.

(** [net.SplitHostPort] on [host:port] and [[host]:port]. *)
Definition SplitHostPort (hostport : string) : option string :=
  match hostport with
  | String "[" r =>
      match cutByte "]" r with
      | Some (h, String ":" _) => Some h
      | _ => None
      end
  | _ =>
      match cutByte ":" hostport with
      | Some (h, port) => if GoStrings.ContainsByte port ":" then None else Some h
      | None => None
      end
  end.

(** The examples configure no DNSSEC key, so the signer is never
    called; it is the identity here. *)
Definition lib : Lib :=
  mkLib SplitDomainName urlHost SplitHostPort ParseIP
        (fun _ m => m) (fun _ m _ => m).

(** A server for the zone [skydns.local.], as [NewServer] sets it up
    (TTL 3600, minimum TTL 60, no key). *)
Definition zone : string := "skydns.local.".

Definition srv (ns : list string) (roundRobin : bool) : server :=
  mkServer ns zone None roundRobin 3600 60.

Definition udp : ResponseWriter := mkWriter false.

(** A query with one question, class INET, recursion desired. *)
Definition query (id : Z) (name : string) (qtype : Z) : dns.Msg :=
  dns.mkMsg id false 0 false true false 0
            [dns.mkQuestion name qtype dns.ClassINET] [] [] [].

Definition leaf (key value : string) (ttl : Z) : etcd.Node :=
  etcd.mkNode key value false ttl [].

Definition dir (key : string) (nodes : list etcd.Node) : etcd.Node :=
  etcd.mkNode key EmptyString true 0 nodes.

(** A store with one path. *)
Definition storeWith (path : string) (node : etcd.Node) : string -> etcd.Node + string :=
  fun p => if String.eqb p path then inl node else inr "Key not found".

Definition emptyStore : string -> etcd.Node + string :=
  fun _ => inr "Key not found".

(** The service [web.skydns.local.] with two instances. *)
Definition webDir : etcd.Node :=
  dir "/local/skydns/web"
      [leaf "/local/skydns/web/1/A" "10.0.0.1" 30;
       leaf "/local/skydns/web/2/A" "10.0.0.2" 30].

(** The same service with three instances. *)
Definition webDir3 : etcd.Node :=
  dir "/local/skydns/web"
      [leaf "/local/skydns/web/1/A" "10.0.0.1" 30;
       leaf "/local/skydns/web/2/A" "10.0.0.2" 30;
       leaf "/local/skydns/web/3/A" "10.0.0.3" 30].

(** A directory whose only leaf holds a value that is no address. *)
Definition badDir : etcd.Node :=
  dir "/local/skydns/web" [leaf "/local/skydns/web/1/A" "not-an-address" 30].

Definition badLeaf : etcd.Node := leaf "/local/skydns/web/A" "not-an-address" 30.

Definition noUpstream : nat -> string -> string -> option dns.Msg :=
  fun _ _ _ => None.

(** The clock of the examples: 2023-11-14 22:13:20 UTC. *)
Definition world (store : string -> etcd.Node + string) (cluster : list string)
           (ids : nat -> Z) (exchange : nat -> string -> string -> option dns.Msg)
  : World :=
  mkWorld store cluster ids exchange 1700000000.

Definition members : list string :=
  ["http://10.0.0.1:4001"; "http://[2001:db8::1]:4001"].

Definition hdrA (name : string) (ttl : Z) : dns.RR_Header :=
  dns.mkHeader name dns.TypeA dns.ClassINET ttl.

Definition hdrAAAA (name : string) (ttl : Z) : dns.RR_Header :=
  dns.mkHeader name dns.TypeAAAA dns.ClassINET ttl.

Definition ip6 : net.IP := [32; 1; 13; 184; 0; 0; 0; 0; 0; 0; 0; 0; 0; 0; 0; 1].

(** The A record built from the [n]-th instance of the service. *)
Definition webA (n : Z) : dns.RR := dns.A (hdrA "web.skydns.local." 30) [10; 0; 0; n].

(** A world whose id generator always returns 1, with the two-instance
    service in the store. *)
Definition oddIdsWorld : World :=
  world (storeWith "local/skydns/web" webDir) [] (fun _ => 1) noUpstream.

(** A world whose id generator counts 0, 1, 2, ... *)
Definition countingWorld : World :=
  world emptyStore [] (fun k => Z.of_nat k) noUpstream.

(** A world whose id generator always returns [id]. *)
Definition constantWorld (id : Z) : World :=
  world emptyStore [] (fun _ => id) noUpstream.

End Example.

(** ** The order in which the forwarder addresses the nameservers

    [upstreamAt s k] is the nameserver at index [k mod len(s.nameservers)],
    and [attempts network s start n] the exchanges with the [n] servers
    from index [start] on, wrapping. *)
Definition upstreamAt (s : server) (k : Z) : string :=
  default EmptyString (nameservers s !! Z.to_nat (k mod len (nameservers s))).

Definition attempts (network : string) (s : server) (start : Z) (n : nat) : list Event :=
  map (fun i : nat => EvExchange network (upstreamAt s (start + Z.of_nat i))) (seq 0 n).

Definition networkOf (w : ResponseWriter) : string :=
  if remoteIsTCP w then "tcp" else "udp".

(** ** What the request path needs of the DNSSEC step

    [nsec] adds denial records to the authority section and [sign] adds
    signatures; the replies they are given keep their rcode, their answer
    section when it is empty, and the SOA records of their authority
    section.  The file that defines them is not part of this embedding,
    so this is stated as a property a [Lib] may have. *)
Definition countSOA (l : list dns.RR) : nat :=
  length (filter (fun r => dns.isSOA r = true) l).

Definition signerKeepsReply (lib : Lib) (s : server) : Prop :=
  forall (m : dns.Msg) (bufsize : Z),
    dns.Rcode (sign lib s (nsec lib s m) bufsize) = dns.Rcode m /\
    (dns.Answer m = [] -> dns.Answer (sign lib s (nsec lib s m) bufsize) = []) /\
    countSOA (dns.Ns (sign lib s (nsec lib s m) bufsize)) = countSOA (dns.Ns m).

(** ** The invariant of the reversal loop

    In [cur], the positions below [i] and above [len - 1 - i] hold the
    mirrored elements of [l]; the positions between are as in [l]. *)
Definition reversedOutside (l cur : list string) (i : nat) : Prop :=
  length cur = length l /\
  forall k, (k < length l)%nat ->
    cur !! k = if bool_decide (k < i \/ length l - 1 - i < k)%nat
               then l !! (length l - 1 - k)%nat else l !! k.

(** ** Definitions for the further properties *)

(** Events that are neither an upstream exchange nor a written message. *)
Definition isQuiet (e : Event) : bool :=
  match e with
  | EvExchange _ _ | EvWriteMsg _ => false
  | _ => true
  end.

(** The state after further events, the counters as they were. *)
Definition addEvents (st : State) (evs : list Event) : State :=
  mkState (idCalls st) (exchangeCalls st) (events st ++ evs).

(** The path [AddressRecords] and [SRVRecords] fetch for a question. *)
Definition storePath (lib : Lib) (q : dns.Question) : string :=
  GoStrings.Join (reverse (dns_SplitDomainName lib (GoStrings.ToLower (dns.qName q)))) "/".

(** Whether [s.client.Get] returns an error for the path. *)
Definition fetchFails (world : World) (path : string) : bool :=
  match client_Get world path with
  | inr _ => true
  | inl _ => false
  end.

(** Lines 173 to 186 once [SRVRecords] has returned no record: the reply
    for a failed or a successful fetch. *)
Definition settle (world : World) (s : server) (req m : dns.Msg) (missing : bool) : dns.Msg :=
  if (missing && (len (dns.Answer m) =? 0))%bool then nameError world s req m
  else if len (dns.Answer m) =? 0 then dns.setNs m [SOA world s]
  else m.

(** The address of a cluster member whose URL and host:port parse. *)
Definition memberIP (lib : Lib) (m : string) : option net.IP :=
  match url_Parse lib m with
  | None => None
  | Some host =>
      match net_SplitHostPort lib host with
      | None => None
      | Some h => Some (net_ParseIP lib h)
      end
  end.

(** The record of the cluster loop for a member address: an A record for
    an IPv4 address when the query is for A, an AAAA record otherwise. *)
Definition clusterRecord (s : server) (q : dns.Question) (ip : net.IP) : dns.RR :=
  if (net.notNil (net.To4 ip) && (dns.Qtype q =? dns.TypeA))%bool
  then dns.A (dns.mkHeader (dns.qName q) dns.TypeA dns.ClassINET (Ttl s)) (net.To4 ip)
  else dns.AAAA (dns.mkHeader (dns.qName q) dns.TypeAAAA dns.ClassINET (Ttl s)) (net.To16 ip).

Definition clusterRecords (lib : Lib) (s : server) (q : dns.Question) (members : list string)
  : list dns.RR :=
  flat_map (fun m => match memberIP lib m with
                     | Some ip => [clusterRecord s q ip]
                     | None => []
                     end) members.

(** What every reply of the authoritative path has: the id and the first
    question of the request, the response, authoritative and
    recursion-available bits, no additional record, rcode NOERROR or
    NXDOMAIN, the SOA record as authority exactly when the answer section
    is empty, and NXDOMAIN only with an empty answer section. *)
Definition replyShape (world : World) (s : server) (req : dns.Msg) (q : dns.Question)
           (m : dns.Msg) : Prop :=
  dns.Id m = dns.Id req /\
  dns.Response m = true /\
  dns.Authoritative m = true /\
  dns.RecursionAvailable m = true /\
  dns.Questions m = [q] /\
  dns.Extra m = [] /\
  (dns.Rcode m = dns.RcodeSuccess \/ dns.Rcode m = dns.RcodeNameError) /\
  (dns.Answer m = [] -> dns.Ns m = [SOA world s]) /\
  (dns.Answer m <> [] -> dns.Ns m = [] /\ dns.Rcode m = dns.RcodeSuccess).

(** [NewServer], for the fields of [server] that the request path reads:
    the listen address, the etcd client, the label count, the handler and
    the wait group are outside this record.  [dns.Fqdn] is a function of
    miekg/dns and a parameter here. *)
Definition NewServer (dns_Fqdn : string -> string) (domain : string)
           (nameservers : list string) : server :=
  mkServer nameservers (dns_Fqdn (GoStrings.ToLower domain)) None false 3600 60.

(** The [dns.Fqdn] of the examples: the name with a final dot, added when
    it is missing. *)
Definition exampleFqdn (s : string) : string :=
  if GoStrings.HasSuffix s "." then s else s +:+ ".".

(** The header of an address record of the walk: name, type and class of
    the question, and the matching record variant. *)
Definition addressRecordOf (q : string) (t : Z) (r : dns.RR) : Prop :=
  dns.Name (dns.Header r) = q /\
  dns.Rrtype (dns.Header r) = t /\
  dns.Class (dns.Header r) = dns.ClassINET /\
  match r with
  | dns.A _ _ => t = dns.TypeA
  | dns.AAAA _ _ => t = dns.TypeAAAA
  | _ => False
  end.

(** * Properties *)

(** ** Slices and the reversal loop *)

Lemma swapAt_Some {A} (l : list A) (i j : nat) x y :
  l !! i = Some x -> l !! j = Some y ->
  swapAt l (Z.of_nat i) (Z.of_nat j) = Some (<[j := x]> (<[i := y]> l)).
Proof.
  intros Hi Hj. unfold swapAt.
  replace (0 <=? Z.of_nat i) with true by (symmetry; apply Z.leb_le; lia).
  replace (0 <=? Z.of_nat j) with true by (symmetry; apply Z.leb_le; lia).
  rewrite !Nat2Z.id, Hi, Hj. reflexivity.
Qed.

Lemma swapAt_inv {A} (l l' : list A) (i j : Z) :
  swapAt l i j = Some l' ->
  exists x y, 0 <= i /\ 0 <= j /\ l !! Z.to_nat i = Some x /\ l !! Z.to_nat j = Some y /\
              l' = <[Z.to_nat j := x]> (<[Z.to_nat i := y]> l).
Proof.
  unfold swapAt. intros H.
  destruct (0 <=? i) eqn:Hi; [|discriminate].
  destruct (0 <=? j) eqn:Hj; [|discriminate]. simpl in H.
  destruct (l !! Z.to_nat i) as [x|] eqn:Ex; [|discriminate].
  destruct (l !! Z.to_nat j) as [y|] eqn:Ey; [|discriminate].
  exists x, y. apply Z.leb_le in Hi, Hj. inversion H. auto.
Qed.

Lemma swapAt_in_range {A} (l : list A) (i j : Z) :
  0 <= i < len l -> 0 <= j < len l -> exists l', swapAt l i j = Some l'.
Proof.
  unfold len. intros Hi Hj.
  destruct (lookup_lt_is_Some_2 l (Z.to_nat i)) as [x Hx]; [lia|].
  destruct (lookup_lt_is_Some_2 l (Z.to_nat j)) as [y Hy]; [lia|].
  exists (<[Z.to_nat j := x]> (<[Z.to_nat i := y]> l)).
  rewrite <- (Z2Nat.id i), <- (Z2Nat.id j) at 1 by lia.
  apply swapAt_Some; assumption.
Qed.

Lemma swapAt_Permutation {A} (l l' : list A) (i j : Z) :
  swapAt l i j = Some l' -> l' ≡ₚ l.
Proof.
  intros H. apply swapAt_inv in H as (x & y & _ & _ & Hx & Hy & ->).
  eapply Permutation_insert_swap; eassumption.
Qed.

Lemma swapAt_length {A} (l l' : list A) (i j : Z) :
  swapAt l i j = Some l' -> length l' = length l.
Proof.
  intros H. apply swapAt_inv in H as (x & y & _ & _ & Hx & Hy & ->).
  rewrite !length_insert. reflexivity.
Qed.


(** From a state that satisfies the invariant, with fuel for the turns
    that are left, the loop ends with the reversed list. *)
Lemma reverseLoop_reverse (l : list string) :
  forall fuel i cur,
    reversedOutside l cur i ->
    (2 * i <= length l)%nat ->
    (length l < 2 * (i + fuel))%nat ->
    reverseLoop fuel (Z.of_nat i) (len l - 1 - Z.of_nat i) cur = Some (reverse l).
Proof.
  induction fuel as [|fuel IH]; intros i cur [Hlen Hinv] Hi Hfuel; [lia|].
  simpl. destruct (Z.ltb_spec (Z.of_nat i) (len l - 1 - Z.of_nat i)) as [Hlt|Hge].
  - unfold len in *.
    assert (Hj : len l - 1 - Z.of_nat i = Z.of_nat (length l - 1 - i)) by (unfold len; lia).
    unfold len in Hj. rewrite Hj.
    destruct (lookup_lt_is_Some_2 cur i) as [x Hx]; [lia|].
    destruct (lookup_lt_is_Some_2 cur (length l - 1 - i)) as [y Hy]; [lia|].
    rewrite (swapAt_Some _ _ _ _ _ Hx Hy).
    replace (Z.of_nat i + 1) with (Z.of_nat (S i)) by lia.
    replace (Z.of_nat (length l - 1 - i) - 1) with (Z.of_nat (length l) - 1 - Z.of_nat (S i)) by lia.
    apply IH; [|lia|lia].
    split; [rewrite !length_insert; lia|].
    intros k Hk.
    destruct (decide (k = (length l - 1 - i)%nat)) as [->|Hkj].
    + rewrite list_lookup_insert_eq by (rewrite length_insert; lia).
      rewrite bool_decide_eq_true_2 by lia.
      rewrite Hinv in Hx by lia. rewrite bool_decide_eq_false_2 in Hx by lia.
      rewrite <- Hx. f_equal. lia.
    + rewrite list_lookup_insert_ne by lia.
      destruct (decide (k = i)) as [->|Hki].
      * rewrite list_lookup_insert_eq by lia.
        rewrite bool_decide_eq_true_2 by lia.
        rewrite Hinv in Hy by lia. rewrite bool_decide_eq_false_2 in Hy by lia.
        rewrite <- Hy. reflexivity.
      * rewrite list_lookup_insert_ne by lia.
        rewrite Hinv by lia.
        destruct (decide (k < i \/ length l - 1 - i < k)%nat).
        -- rewrite !bool_decide_eq_true_2 by lia. reflexivity.
        -- rewrite !bool_decide_eq_false_2 by lia. reflexivity.
  - f_equal. unfold len in *. apply list_eq. intros k.
    destruct (decide (k < length l)%nat) as [Hk|Hk].
    + rewrite reverse_lookup by lia. rewrite Hinv by lia.
      case_bool_decide; f_equal; lia.
    + rewrite !lookup_ge_None_2; [reflexivity| rewrite length_reverse; lia | lia].
Qed.

Lemma reverseLoop_total (l : list string) :
  reverseLoop (S (length l)) 0 (len l - 1) l = Some (reverse l).
Proof.
  replace (len l - 1) with (len l - 1 - Z.of_nat 0) by lia.
  change 0 with (Z.of_nat 0) at 1.
  apply reverseLoop_reverse; [|lia|lia].
  split; [reflexivity|]. intros k Hk.
  rewrite bool_decide_eq_false_2 by lia. reflexivity.
Qed.

(** [questionToPath] never fails: it joins the labels in reverse order. *)
Lemma questionToPath_reverse (lib : Lib) (s : string) :
  questionToPath lib s = Some (GoStrings.Join (reverse (dns_SplitDomainName lib s)) "/").
Proof. unfold questionToPath. rewrite reverseLoop_total. reflexivity. Qed.

(** ** The round-robin reordering *)

Lemma uint16_range x : 0 <= uint16 x < 65536.
Proof. unfold uint16. change (2 ^ 16) with 65536. apply Z.mod_pos_bound. lia. Qed.

Lemma rem_range a b : 0 <= a -> 0 < b -> 0 <= Z.rem a b < b.
Proof. intros Ha Hb. rewrite Z.rem_mod_nonneg by lia. apply Z.mod_pos_bound. lia. Qed.

(** The loop from turn [j] on, whatever the generator returns: it ends,
    within the fuel of [roundRobin], with a permutation of the records,
    after at least [l - j] and at most [4*l - j] swaps. *)
Lemma roundRobinLoop_spec (world : World) (l : Z) :
  forall fuel records j st,
    len records = l -> 0 < l -> 0 <= j <= 4 * l ->
    4 * l - j < Z.of_nat fuel ->
    exists records' st' swaps,
      roundRobinLoop world fuel l j records st = (Return records', st') /\
      records' ≡ₚ records /\
      events st' = events st ++ swaps /\
      exchangeCalls st' = exchangeCalls st /\
      Forall (drawnSwap world l) swaps /\
      l - j <= len swaps <= 4 * l - j.
Proof.
  induction fuel as [|fuel IH]; intros records j st Hlen Hl Hj Hfuel; [lia|].
  cbn [roundRobinLoop]. unfold bind at 1. unfold dnsId at 1.
  set (c := uint16 (dns_Id world (idCalls st))).
  set (st1 := mkState (S (idCalls st)) (exchangeCalls st) (events st)).
  assert (Hc : 0 <= Z.rem c 4 < 4) by (apply rem_range; [apply uint16_range | lia]).
  destruct (Z.ltb_spec j (l * (Z.rem c 4 + 1))) as [Hlt|Hge].
  - unfold bind at 1. unfold dnsId at 1.
    set (idq := uint16 (dns_Id world (idCalls st1))).
    set (st2 := mkState (S (idCalls st1)) (exchangeCalls st1) (events st1)).
    unfold bind at 1. unfold dnsId at 1.
    set (idp := uint16 (dns_Id world (idCalls st2))).
    set (st3 := mkState (S (idCalls st2)) (exchangeCalls st2) (events st2)).
    set (q := Z.rem idq l).
    set (p := if q =? Z.rem idp l then Z.rem (Z.rem idp l + 1) l else Z.rem idp l).
    assert (Hq : 0 <= q < l) by (apply rem_range; [apply uint16_range | lia]).
    assert (Hp0 : 0 <= Z.rem idp l < l) by (apply rem_range; [apply uint16_range | lia]).
    assert (Hp : 0 <= p < l).
    { unfold p. destruct (q =? Z.rem idp l); [apply rem_range; lia | exact Hp0]. }
    destruct (swapAt_in_range records q p) as [records1 Hswap]; [lia | lia |].
    unfold bind at 1. rewrite Hswap. unfold orPanic, ret at 1.
    unfold bind at 1. unfold emit at 1.
    set (st4 := mkState (idCalls st3) (exchangeCalls st3) (events st3 ++ [EvSwap q p])).
    destruct (IH records1 (j + 1) st4) as (r' & st' & swaps & Hrun & Hperm & Hev & Hex & Hall & Hlo & Hhi).
    { unfold len. rewrite (swapAt_length _ _ _ _ Hswap). exact Hlen. }
    { lia. } { nia. } { lia. }
    exists r', st', (EvSwap q p :: swaps). split; [exact Hrun|].
    split; [rewrite Hperm; eapply swapAt_Permutation; exact Hswap|].
    split; [rewrite Hev; subst st4 st3 st2 st1; simpl; rewrite <- app_assoc; reflexivity|].
    split; [rewrite Hex; reflexivity|].
    split.
    { constructor; [|exact Hall]. exists (S (idCalls st)). cbn zeta.
      subst p q. rewrite (Z.rem_mod_nonneg (Z.rem idp l + 1) l) by lia.
      pose proof (uint16_range (dns_Id world (S (idCalls st)))).
      pose proof (uint16_range (dns_Id world (S (S (idCalls st))))).
      subst idq idp st2 st1. cbn [idCalls].
      rewrite !(Z.rem_mod_nonneg _ l) by lia. reflexivity. }
    unfold len in *. cbn [length]. lia.
  - exists records, st1, []. unfold ret.
    split; [reflexivity|]. split; [reflexivity|].
    split; [subst st1; simpl; rewrite app_nil_r; reflexivity|].
    split; [reflexivity|]. split; [constructor|].
    unfold len; cbn [length]. nia.
Qed.

Lemma drawnSwap_isEvSwap (world : World) (l : Z) (e : Event) :
  drawnSwap world l e -> isEvSwap e = true.
Proof. intros [k ->]. reflexivity. Qed.

Lemma roundRobin_spec (world : World) (records : list dns.RR) (st : State) :
  exists records' st' swaps,
    roundRobin world records st = (Return records', st') /\
    records' ≡ₚ records /\
    events st' = events st ++ swaps /\
    exchangeCalls st' = exchangeCalls st /\
    Forall (fun e => isEvSwap e = true) swaps /\
    (3 <= len records ->
     len records <= len swaps <= 4 * len records /\
     Forall (drawnSwap world (len records)) swaps).
Proof.
  unfold roundRobin.
  destruct (Z.eqb_spec (len records) 1) as [H1|H1].
  { exists records, st, []. unfold ret. rewrite app_nil_r.
    repeat split; try reflexivity; try constructor; lia. }
  destruct (Z.eqb_spec (len records) 2) as [H2|H2].
  { unfold bind at 1. unfold dnsId at 1.
    destruct (Z.rem _ 2 =? 0).
    - destruct (swapAt_in_range records 0 1) as [r' Hr']; [lia | lia |].
      unfold bind at 1. rewrite Hr'. unfold orPanic, ret at 1.
      unfold bind, emit, ret. cbn [idCalls exchangeCalls events].
      eexists _, _, [EvSwap 0 1]. split; [reflexivity|].
      split; [eapply swapAt_Permutation; exact Hr'|].
      repeat split; try reflexivity; try lia. repeat constructor.
    - unfold ret. eexists _, _, []. split; [reflexivity|].
      cbn [idCalls exchangeCalls events]. rewrite app_nil_r.
      repeat split; try reflexivity; try constructor; lia. }
  destruct (decide (len records = 0)) as [H0|H0].
  { rewrite H0. cbn [roundRobinLoop]. unfold bind, dnsId, ret.
    rewrite Z.mul_0_l. cbn [Z.ltb Z.compare].
    eexists _, _, []. split; [reflexivity|].
    cbn [idCalls exchangeCalls events]. rewrite app_nil_r.
    repeat split; try reflexivity; try constructor; lia. }
  assert (Hl : 3 <= len records) by (unfold len in *; lia).
  destruct (roundRobinLoop_spec world (len records) (S (4 * length records)) records 0 st)
    as (r' & st' & swaps & Hrun & Hperm & Hev & Hex & Hall & Hcount);
    [reflexivity | lia | lia | unfold len; lia |].
  exists r', st', swaps. repeat split; try assumption; try lia.
  eapply Forall_impl; [exact Hall|]. apply drawnSwap_isEvSwap.
Qed.

Lemma iter_shift {A} (f : A -> A) (n : nat) (x : A) :
  Nat.iter (S n) f x = Nat.iter n f (f x).
Proof. induction n as [|n IH]; [reflexivity|]. simpl in *. rewrite IH. reflexivity. Qed.

Lemma specSwap_swapAt (id : Z) (records r' : list dns.RR) :
  swapAt records (id mod len records) ((id mod len records + 1) mod len records) = Some r' ->
  specSwap id records = r'.
Proof. unfold specSwap. rewrite Z.eqb_refl. intros ->. reflexivity. Qed.

(** The loop from turn [j] on under a generator that always returns [id]:
    the swaps that are left of the [l*(id mod 4 + 1)], each the swap of the
    specification. *)
Lemma roundRobinLoop_constant (world : World) (id l : Z) :
  (forall k, uint16 (dns_Id world k) = id) ->
  forall fuel records j st,
    len records = l -> 0 < l -> 0 <= j <= l * (id mod 4 + 1) ->
    l * (id mod 4 + 1) - j < Z.of_nat fuel ->
    exists st',
      roundRobinLoop world fuel l j records st
      = (Return (Nat.iter (Z.to_nat (l * (id mod 4 + 1) - j)) (specSwap id) records), st') /\
      events st'
      = events st ++ replicate (Z.to_nat (l * (id mod 4 + 1) - j))
                               (EvSwap (id mod l) ((id mod l + 1) mod l)).
Proof.
  intros Hid.
  assert (Hr : 0 <= id < 65536) by (rewrite <- (Hid 0%nat); apply uint16_range).
  induction fuel as [|fuel IH]; intros records j st Hlen Hl Hj Hfuel; [lia|].
  cbn [roundRobinLoop]. unfold bind at 1. unfold dnsId at 1. rewrite Hid.
  rewrite Z.rem_mod_nonneg by lia.
  destruct (Z.ltb_spec j (l * (id mod 4 + 1))) as [Hlt|Hge].
  - unfold bind at 1. unfold dnsId at 1. rewrite Hid.
    unfold bind at 1. unfold dnsId at 1. rewrite Hid.
    cbn [idCalls exchangeCalls events].
    rewrite (Z.rem_mod_nonneg id l) by lia. rewrite Z.eqb_refl.
    assert (Hq : 0 <= id mod l < l) by (apply Z.mod_pos_bound; lia).
    rewrite (Z.rem_mod_nonneg (id mod l + 1) l) by lia.
    assert (Hp : 0 <= (id mod l + 1) mod l < l) by (apply Z.mod_pos_bound; lia).
    destruct (swapAt_in_range records (id mod l) ((id mod l + 1) mod l)) as [r1 Hswap];
      [lia | lia |].
    unfold bind at 1. rewrite Hswap. unfold orPanic, ret at 1.
    unfold bind at 1. unfold emit at 1. cbn [idCalls exchangeCalls events].
    match goal with |- context [roundRobinLoop world fuel l (j + 1) r1 ?s] =>
      destruct (IH r1 (j + 1) s) as (st' & Hrun & Hev) end.
    { unfold len. rewrite (swapAt_length _ _ _ _ Hswap). exact Hlen. }
    { lia. } { lia. } { lia. }
    exists st'. rewrite Hrun, Hev. cbn [events].
    replace (Z.to_nat (l * (id mod 4 + 1) - j))
      with (S (Z.to_nat (l * (id mod 4 + 1) - (j + 1)))) by lia.
    rewrite iter_shift. rewrite <- Hlen in Hswap.
    rewrite (specSwap_swapAt _ _ _ Hswap).
    split; [reflexivity|]. rewrite <- app_assoc. reflexivity.
  - exists (mkState (S (idCalls st)) (exchangeCalls st) (events st)).
    replace (l * (id mod 4 + 1) - j) with 0 by lia.
    unfold ret. cbn. rewrite app_nil_r. split; reflexivity.
Qed.

Lemma roundRobin_constant (world : World) (id : Z) :
  (forall k, uint16 (dns_Id world k) = id) ->
  forall records st,
    exists st',
      roundRobin world records st = (Return (specShuffle id records), st') /\
      (3 <= len records ->
       events st'
       = events st ++ replicate (Z.to_nat (specSwapCount id records))
                                (EvSwap (id mod len records)
                                        ((id mod len records + 1) mod len records))).
Proof.
  intros Hid records st.
  assert (Hr : 0 <= id < 65536) by (rewrite <- (Hid 0%nat); apply uint16_range).
  unfold roundRobin, specShuffle.
  destruct (Z.eqb_spec (len records) 1) as [H1|H1].
  { rewrite H1. cbn. exists st. split; [reflexivity | lia]. }
  destruct (Z.eqb_spec (len records) 2) as [H2|H2].
  { rewrite H2. cbn [Z.leb Z.compare].
    unfold bind at 1. unfold dnsId at 1. rewrite Hid.
    rewrite Z.rem_mod_nonneg by lia.
    destruct (id mod 2 =? 0).
    - destruct (swapAt_in_range records 0 1) as [r' Hr']; [lia | lia |].
      unfold bind at 1. rewrite Hr'. unfold orPanic, ret at 1.
      unfold bind, emit, ret. cbn. eexists. split; [reflexivity | lia].
    - unfold ret. eexists. split; [reflexivity | lia]. }
  destruct (decide (len records = 0)) as [H0|H0].
  { rewrite H0. cbn [roundRobinLoop Z.leb Z.compare]. unfold bind, dnsId, ret.
    rewrite Z.mul_0_l. cbn [Z.ltb Z.compare].
    eexists. split; [reflexivity | lia]. }
  assert (Hl : 3 <= len records) by (unfold len in *; lia).
  assert (Hm : 0 <= id mod 4 < 4) by (apply Z.mod_pos_bound; lia).
  destruct (Z.leb_spec (len records) 1); [lia|].
  destruct (roundRobinLoop_constant world id (len records) Hid
              (S (4 * length records)) records 0 st) as (st' & Hrun & Hev);
    [reflexivity | lia | nia | unfold len in *; nia |].
  rewrite Z.sub_0_r in Hrun, Hev.
  exists st'. split; [exact Hrun|]. intros _. exact Hev.
Qed.

(** C10.  The round-robin post-processing of [AddressRecords] only exchanges
    pairs of elements: for every record list, every id generator and every
    state it returns, and the list it returns is a permutation of its input,
    with the same length and the same multiset of records. *)
Theorem roundRobin_permutation (world : World) (records : list dns.RR) (st : State) :
  exists records' st',
    roundRobin world records st = (Return records', st') /\
    records' ≡ₚ records /\
    length records' = length records.
Proof.
  destruct (roundRobin_spec world records st)
    as (r' & st' & swaps & Hrun & Hperm & _).
  exists r', st'. split; [exact Hrun|]. split; [exact Hperm|].
  apply Permutation_length. exact Hperm.
Qed.

Lemma roundRobin_two (world : World) (a b : dns.RR) (st : State) :
  fst (roundRobin world [a; b] st)
  = Return (if Z.rem (uint16 (dns_Id world (idCalls st))) 2 =? 0 then [b; a] else [a; b]).
Proof.
  unfold roundRobin. change (len [a; b]) with 2. cbn [Z.eqb Pos.eqb].
  unfold bind at 1. unfold dnsId at 1.
  destruct (Z.rem _ 2 =? 0); reflexivity.
Qed.




(** ** The forwarding client *)

Lemma upstreamAt_lookup (s : server) (nsid : Z) :
  0 <= nsid < len (nameservers s) ->
  (if 0 <=? nsid then nameservers s !! Z.to_nat nsid else None) = Some (upstreamAt s nsid).
Proof.
  intros H. unfold upstreamAt. rewrite Z.mod_small by lia.
  destruct (Z.leb_spec 0 nsid); [|lia].
  destruct (lookup_lt_is_Some_2 (nameservers s) (Z.to_nat nsid)) as [a Ha];
    [unfold len in H; lia|].
  rewrite Ha. reflexivity.
Qed.

(** The success branch for a request with a question, and without. *)
Lemma forwarded_question (req r : dns.Msg) (st : State) :
  dns.Questions req <> [] -> forwarded req r st = WriteMsg r st.
Proof.
  intros H. unfold forwarded, bind, orPanic.
  destruct (dns.Questions req); [contradiction H|]; reflexivity.
Qed.

Lemma forwarded_no_question (req r : dns.Msg) (st : State) :
  dns.Questions req = [] ->
  forwarded req r st = (GoPanic "runtime error: index out of range", st).
Proof. intros H. unfold forwarded, bind, orPanic. rewrite H. reflexivity. Qed.

(** One pass from the label [Redo], with the index in range. *)
Lemma forwardRedo_step (world : World) (fuel : nat) (s : server) (network : string)
      (req : dns.Msg) (nsid try : Z) (st : State) :
  0 <= nsid < len (nameservers s) ->
  forwardRedo world (S fuel) s network req nsid try st
  = let addr := upstreamAt s nsid in
    let st1 := mkState (idCalls st) (S (exchangeCalls st))
                       (events st ++ [EvExchange network addr]) in
    match client_Exchange world (exchangeCalls st) network addr with
    | Some r => forwarded req r st1
    | None =>
        if try <? len (nameservers s)
        then forwardRedo world fuel s network req
                         ((nsid + 1) mod len (nameservers s)) (try + 1) st1
        else WriteMsg (exhaustedReply req) st1
    end.
Proof.
  intros H. cbn [forwardRedo]. rewrite upstreamAt_lookup by exact H.
  unfold bind, orPanic, ret, clientExchange. cbn zeta.
  rewrite Z.rem_mod_nonneg by lia.
  destruct (client_Exchange world (exchangeCalls st) network (upstreamAt s nsid));
    [reflexivity|].
  destruct (try <? len (nameservers s)); reflexivity.
Qed.

Lemma upstreamAt_mod (s : server) (k : Z) :
  upstreamAt s (k mod len (nameservers s)) = upstreamAt s k.
Proof.
  unfold upstreamAt. destruct (decide (len (nameservers s) = 0)) as [->|H].
  - rewrite !Z.mod_0_r. reflexivity.
  - rewrite Z.mod_mod by exact H. reflexivity.
Qed.

Lemma attempts_S (network : string) (s : server) (start : Z) (n : nat) :
  attempts network s start (S n)
  = EvExchange network (upstreamAt s start)
      :: attempts network s ((start + 1) mod len (nameservers s)) n.
Proof.
  unfold attempts. cbn [seq map]. rewrite Z.add_0_r. f_equal.
  rewrite <- seq_shift, map_map. apply map_ext. intros i. f_equal.
  rewrite <- (upstreamAt_mod s ((start + 1) mod _ + _)).
  rewrite Zplus_mod_idemp_l. rewrite upstreamAt_mod. f_equal. lia.
Qed.

(** [n] failing exchanges in a row, while the retry budget lasts. *)
Lemma forwardRedo_failures (world : World) (s : server) (network : string) (req : dns.Msg) :
  forall n fuel nsid try st,
    0 <= nsid < len (nameservers s) ->
    try + Z.of_nat n <= len (nameservers s) ->
    (forall i, (i < n)%nat ->
       client_Exchange world (exchangeCalls st + i) network
                       (upstreamAt s (nsid + Z.of_nat i)) = None) ->
    forwardRedo world (n + fuel) s network req nsid try st
    = forwardRedo world fuel s network req
                  ((nsid + Z.of_nat n) mod len (nameservers s)) (try + Z.of_nat n)
                  (mkState (idCalls st) (exchangeCalls st + n)
                           (events st ++ attempts network s nsid n)).
Proof.
  induction n as [|n IH]; intros fuel nsid try st Hns Htry Hfail.
  - cbn [Nat.add Z.of_nat]. rewrite !Z.add_0_r, Z.mod_small by lia.
    unfold attempts. cbn [seq map]. rewrite app_nil_r, Nat.add_0_r.
    destruct st; reflexivity.
  - cbn [Nat.add]. rewrite forwardRedo_step by exact Hns. cbn zeta.
    pose proof (Hfail 0%nat ltac:(lia)) as H0.
    rewrite Nat.add_0_r in H0. cbn [Z.of_nat] in H0. rewrite Z.add_0_r in H0.
    rewrite H0.
    destruct (Z.ltb_spec try (len (nameservers s))); [|lia].
    rewrite IH.
    + rewrite attempts_S. cbn [idCalls exchangeCalls events].
      rewrite Zplus_mod_idemp_l. rewrite <- app_assoc. cbn [app].
      f_equal; [f_equal; lia | lia |]. f_equal. lia.
    + apply Z.mod_pos_bound. lia.
    + lia.
    + intros i Hi. cbn [exchangeCalls].
      specialize (Hfail (S i) ltac:(lia)).
      replace (S (exchangeCalls st) + i)%nat with (exchangeCalls st + S i)%nat by lia.
      rewrite <- upstreamAt_mod, Zplus_mod_idemp_l, upstreamAt_mod.
      rewrite <- Hfail. f_equal. f_equal. lia.
Qed.

Lemma upstreamAt_add_mod (s : server) (a b : Z) :
  upstreamAt s (a mod len (nameservers s) + b) = upstreamAt s (a + b).
Proof. rewrite <- upstreamAt_mod, Zplus_mod_idemp_l, upstreamAt_mod. reflexivity. Qed.

Lemma attempts_mod (network : string) (s : server) (start : Z) (n : nat) :
  attempts network s (start mod len (nameservers s)) n = attempts network s start n.
Proof.
  unfold attempts. apply map_ext. intros i. f_equal.
  rewrite <- upstreamAt_mod, Zplus_mod_idemp_l, upstreamAt_mod. reflexivity.
Qed.

Lemma attempts_exchanges (network : string) (s : server) (start : Z) (n : nat) :
  Forall (fun e => isEvExchange e = true) (attempts network s start n).
Proof. unfold attempts. apply Forall_map. apply Forall_forall. reflexivity. Qed.

(** The forwarder once entered with nameservers configured: [k] failed
    exchanges, then the [k+1]-st decides. *)
Lemma ServeDNSForward_unfold (world : World) (s : server) (w : ResponseWriter)
      (req : dns.Msg) (st : State) (k : nat) :
  nameservers s <> [] ->
  0 <= dns.Id req ->
  (k <= length (nameservers s))%nat ->
  (forall i, (i < k)%nat ->
     client_Exchange world (exchangeCalls st + i) (networkOf w)
                     (upstreamAt s (dns.Id req + Z.of_nat i)) = None) ->
  ServeDNSForward world s w req st
  = let st1 := mkState (idCalls st) (exchangeCalls st + S k)
                       (events st ++ attempts (networkOf w) s (dns.Id req) (S k)) in
    match client_Exchange world (exchangeCalls st + k) (networkOf w)
                          (upstreamAt s (dns.Id req + Z.of_nat k)) with
    | Some r => forwarded req r st1
    | None =>
        if (k <? length (nameservers s))%nat
        then forwardRedo world (length (nameservers s) - k) s (networkOf w) req
                         ((dns.Id req + Z.of_nat (S k)) mod len (nameservers s))
                         (Z.of_nat (S k)) st1
        else WriteMsg (exhaustedReply req) st1
    end.
Proof.
  intros Hns Hid Hk Hfail. unfold ServeDNSForward. fold (networkOf w).
  assert (HN : 0 < len (nameservers s)).
  { unfold len. destruct (nameservers s); [congruence | cbn [length]; lia]. }
  destruct (Z.eqb_spec (len (nameservers s)) 0) as [H0|_]; [lia|].
  rewrite Z.rem_mod_nonneg by lia.
  replace (S (length (nameservers s)))
    with (k + S (length (nameservers s) - k))%nat by lia.
  rewrite forwardRedo_failures.
  - rewrite forwardRedo_step by (apply Z.mod_pos_bound; lia).
    cbn zeta. cbn [idCalls exchangeCalls events].
    rewrite upstreamAt_mod, attempts_mod, !upstreamAt_add_mod.
    replace (events st ++ attempts (networkOf w) s (dns.Id req) (S k))
      with ((events st ++ attempts (networkOf w) s (dns.Id req) k)
              ++ [EvExchange (networkOf w) (upstreamAt s (dns.Id req + Z.of_nat k))]).
    2:{ rewrite <- app_assoc. f_equal. unfold attempts.
        rewrite seq_S, map_app. reflexivity. }
    replace (S (exchangeCalls st + k)) with (exchangeCalls st + S k)%nat by lia.
    destruct (client_Exchange _ _ _ _); [reflexivity|].
    rewrite Zplus_mod_idemp_l, <- Z.add_assoc, Zplus_mod_idemp_l.
    replace (dns.Id req + (Z.of_nat k + 1)) with (dns.Id req + Z.of_nat (S k)) by lia.
    replace (0 + Z.of_nat k + 1) with (Z.of_nat (S k)) by lia.
    unfold len.
    destruct (Z.ltb_spec (0 + Z.of_nat k) (Z.of_nat (length (nameservers s))));
      destruct (Nat.ltb_spec k (length (nameservers s))); try lia; reflexivity.
  - apply Z.mod_pos_bound. lia.
  - unfold len. lia.
  - intros i Hi. rewrite upstreamAt_add_mod. apply Hfail. exact Hi.
Qed.

(** X14.  When every exchange fails, [ServeDNSForward] makes one exchange
    more than there are nameservers, starting at the nameserver
    [Id mod N] and going round in order, and then writes the SERVFAIL
    reply built from the request. *)
Lemma ServeDNSForward_all_fail (world : World) (s : server) (w : ResponseWriter)
      (req : dns.Msg) (st : State) :
  nameservers s <> [] ->
  0 <= dns.Id req ->
  (forall i, (i <= length (nameservers s))%nat ->
     client_Exchange world (exchangeCalls st + i) (networkOf w)
                     (upstreamAt s (dns.Id req + Z.of_nat i)) = None) ->
  ServeDNSForward world s w req st
  = (Return tt,
     mkState (idCalls st) (exchangeCalls st + S (length (nameservers s)))
             (events st
                ++ attempts (networkOf w) s (dns.Id req) (S (length (nameservers s)))
                ++ [EvWriteMsg (exhaustedReply req)])).
Proof.
  intros Hns Hid Hfail.
  rewrite (ServeDNSForward_unfold world s w req st (length (nameservers s)))
    by (try assumption; try lia; intros i Hi; apply Hfail; lia).
  cbn zeta. rewrite Hfail by lia. rewrite Nat.ltb_irrefl.
  unfold WriteMsg, emit. cbn [idCalls exchangeCalls events].
  rewrite <- app_assoc. reflexivity.
Qed.

(** X15.  For a request with a question, when the first success is the
    [k+1]-st exchange ([k] at most the number of nameservers),
    [ServeDNSForward] makes exactly these [k + 1] exchanges, in order
    from the nameserver [Id mod N], and writes the upstream's reply as it
    is. *)
Lemma ServeDNSForward_first_success (world : World) (s : server) (w : ResponseWriter)
      (req r : dns.Msg) (st : State) (k : nat) :
  dns.Questions req <> [] ->
  nameservers s <> [] ->
  0 <= dns.Id req ->
  (k <= length (nameservers s))%nat ->
  (forall i, (i < k)%nat ->
     client_Exchange world (exchangeCalls st + i) (networkOf w)
                     (upstreamAt s (dns.Id req + Z.of_nat i)) = None) ->
  client_Exchange world (exchangeCalls st + k) (networkOf w)
                  (upstreamAt s (dns.Id req + Z.of_nat k)) = Some r ->
  ServeDNSForward world s w req st
  = (Return tt,
     mkState (idCalls st) (exchangeCalls st + S k)
             (events st ++ attempts (networkOf w) s (dns.Id req) (S k) ++ [EvWriteMsg r])).
Proof.
  intros Hq Hns Hid Hk Hfail Hok.
  rewrite (ServeDNSForward_unfold world s w req st k) by assumption.
  cbn zeta. rewrite Hok, forwarded_question by exact Hq.
  unfold WriteMsg, emit. cbn [idCalls exchangeCalls events].
  rewrite <- app_assoc. reflexivity.
Qed.

(** Whatever the upstreams do, the forwarder returns, for a request with
    a question, after exchanges only and one written message. *)
Lemma forwardRedo_returns (world : World) (s : server) (network : string) (req : dns.Msg) :
  dns.Questions req <> [] ->
  forall fuel nsid try st,
    0 <= nsid < len (nameservers s) ->
    0 <= try <= len (nameservers s) ->
    len (nameservers s) - try < Z.of_nat fuel ->
    exists st' exch m,
      forwardRedo world fuel s network req nsid try st = (Return tt, st') /\
      events st' = events st ++ exch ++ [EvWriteMsg m] /\
      Forall (fun e => isEvExchange e = true) exch /\
      idCalls st' = idCalls st.
Proof.
  intros Hq.
  induction fuel as [|fuel IH]; intros nsid try st Hns Htry Hfuel.
  { lia. }
  rewrite forwardRedo_step by exact Hns. cbn zeta.
  destruct (client_Exchange _ _ _ _) as [r|].
  - rewrite forwarded_question by exact Hq.
    eexists _, [_], r. unfold WriteMsg, emit. cbn [idCalls exchangeCalls events].
    rewrite <- app_assoc. repeat split. repeat constructor.
  - destruct (Z.ltb_spec try (len (nameservers s))).
    + match goal with |- context [forwardRedo world fuel s network req ?n ?t ?s1] =>
        destruct (IH n t s1) as (st' & exch & m & Hrun & Hev & Hall & Hids) end.
      { apply Z.mod_pos_bound. lia. } { lia. } { lia. }
      eexists st', (_ :: exch), m. split; [exact Hrun|].
      cbn [events idCalls] in Hev, Hids. rewrite Hev, <- app_assoc.
      repeat split; [constructor; [reflexivity | exact Hall] | exact Hids].
    + eexists _, [_], _. unfold WriteMsg, emit. cbn [idCalls exchangeCalls events].
      rewrite <- app_assoc. repeat split. repeat constructor.
Qed.

Lemma ServeDNSForward_returns (world : World) (s : server) (w : ResponseWriter)
      (req : dns.Msg) (st : State) :
  dns.Questions req <> [] ->
  0 <= dns.Id req ->
  exists st' exch m,
    ServeDNSForward world s w req st = (Return tt, st') /\
    events st' = events st ++ exch ++ [EvWriteMsg m] /\
    Forall (fun e => isEvExchange e = true) exch /\
    idCalls st' = idCalls st.
Proof.
  intros Hq Hid. unfold ServeDNSForward.
  destruct (Z.eqb_spec (len (nameservers s)) 0) as [H0|H0].
  - eexists _, [], _. unfold WriteMsg, emit. cbn [idCalls events]. repeat split.
    constructor.
  - apply forwardRedo_returns.
    + exact Hq.
    + apply rem_range; [exact Hid | unfold len in *; lia].
    + unfold len. lia.
    + unfold len. lia.
Qed.

(** C2 at a failing input.  Two nameservers, every exchange fails, request
    id 7: the forwarder starts at index 7 mod 2 = 1 and makes three
    exchanges, the third with the server it started with, before it writes
    the SERVFAIL reply.  The claim has two. *)
Theorem ServeDNSForward_two_nameservers_three_exchanges :
  ServeDNSForward (Example.world Example.emptyStore [] (fun _ => 0) Example.noUpstream)
                  (Example.srv ["8.8.8.8:53"; "8.8.4.4:53"] false) Example.udp
                  (Example.query 7 "example.com." dns.TypeA) initState
  = (Return tt,
     mkState 0 3
             [EvExchange "udp" "8.8.4.4:53";
              EvExchange "udp" "8.8.8.8:53";
              EvExchange "udp" "8.8.4.4:53";
              EvWriteMsg (exhaustedReply (Example.query 7 "example.com." dns.TypeA))]).
Proof. vm_compute. reflexivity. Qed.

(** ** The request router *)

(** C3.  For every request whose lowercased question name does
    not end with the configured zone ([strings.HasSuffix(name, s.domain)]
    is false), [ServeDNS] is [ServeDNSForward]: it returns after exchanges
    with upstream servers and one written message, and no event is a store
    access.  With no nameserver configured the forwarder writes at once,
    without any exchange, a reply with rcode SERVFAIL, authoritative false
    and recursion-available true. *)
Theorem ServeDNS_outside_zone_forwards (lib : Lib) (world : World) (s : server)
        (w : ResponseWriter) (req : dns.Msg) (q : dns.Question)
        (rest : list dns.Question) (st : State) :
  dns.Questions req = q :: rest ->
  GoStrings.HasSuffix (GoStrings.ToLower (dns.qName q)) (domain s) = false ->
  0 <= dns.Id req ->
  ServeDNS lib world s w req st = ServeDNSForward world s w req st /\
  (exists st' exch m,
      ServeDNS lib world s w req st = (Return tt, st') /\
      events st' = events st ++ exch ++ [EvWriteMsg m] /\
      Forall (fun e => isEvExchange e = true) exch /\
      Forall (fun e => isStoreEvent e = false) (exch ++ [EvWriteMsg m])) /\
  (nameservers s = [] ->
   ServeDNS lib world s w req st
   = (Return tt,
      mkState (idCalls st) (exchangeCalls st)
              (events st ++ [EvWriteMsg (noServersReply req)])) /\
   dns.Rcode (noServersReply req) = dns.RcodeServerFailure /\
   dns.Authoritative (noServersReply req) = false /\
   dns.RecursionAvailable (noServersReply req) = true).
Proof.
  intros Hq Hout Hid.
  assert (Hfwd : ServeDNS lib world s w req st = ServeDNSForward world s w req st).
  { unfold ServeDNS. rewrite Hq, Hout. reflexivity. }
  split; [exact Hfwd|]. split.
  - rewrite Hfwd.
    destruct (ServeDNSForward_returns world s w req st
                ltac:(rewrite Hq; discriminate) Hid)
      as (st' & exch & m & Hrun & Hev & Hall & _).
    exists st', exch, m. repeat split; try assumption.
    apply Forall_app. split; [|repeat constructor].
    eapply Forall_impl; [exact Hall|]. intros [] He; (discriminate He || reflexivity).
  - intros Hns. rewrite Hfwd. unfold ServeDNSForward. rewrite Hns.
    repeat split.
Qed.

(** A query for [example.com.] at the server of [skydns.local.]. *)
Lemma ServeDNS_outside_zone_forwards_witness :
  exists st' exch m,
    ServeDNS Example.lib
             (Example.world Example.emptyStore [] (fun _ => 0) Example.noUpstream)
             (Example.srv ["8.8.8.8:53"] false) Example.udp
             (Example.query 7 "example.com." dns.TypeA) initState
    = (Return tt, st') /\
    events st' = events initState ++ exch ++ [EvWriteMsg m] /\
    Forall (fun e => isEvExchange e = true) exch /\
    Forall (fun e => isStoreEvent e = false) (exch ++ [EvWriteMsg m]).
Proof.
  apply (ServeDNS_outside_zone_forwards
           Example.lib
           (Example.world Example.emptyStore [] (fun _ => 0) Example.noUpstream)
           (Example.srv ["8.8.8.8:53"] false) Example.udp
           (Example.query 7 "example.com." dns.TypeA)
           (dns.mkQuestion "example.com." dns.TypeA dns.ClassINET) [] initState).
  - reflexivity.
  - vm_compute. reflexivity.
  - vm_compute. discriminate.
Defined.

(** The test is on the text of the name, not on its labels: the name
    [notskydns.local.] has the labels [notskydns] and [local] and is no
    name of the zone [skydns.local.], but it ends with the text of the
    zone.  The request is not forwarded: the path is fetched from the
    store and, being absent, the name is answered with NXDOMAIN. *)
Lemma zone_text_suffix_is_answered :
  Example.SplitDomainName "notskydns.local." = ["notskydns"; "local"] /\
  GoStrings.HasSuffix (GoStrings.ToLower "notskydns.local.") Example.zone = true /\
  exists st m,
    ServeDNS Example.lib
             (Example.world Example.emptyStore [] (fun _ => 0) Example.noUpstream)
             (Example.srv ["8.8.8.8:53"] false) Example.udp
             (Example.query 7 "notskydns.local." dns.TypeA) initState
    = (Return tt, st) /\
    events st = [EvGet "local/notskydns"; EvWriteMsg m] /\
    dns.Rcode m = dns.RcodeNameError.
Proof.
  split; [vm_compute; reflexivity|]. split; [vm_compute; reflexivity|].
  eexists _, _. vm_compute. repeat split.
Qed.

Lemma ServeDNS_inside_zone (lib : Lib) (world : World) (s : server)
      (w : ResponseWriter) (req : dns.Msg) (q : dns.Question)
      (rest : list dns.Question) (st : State) :
  dns.Questions req = q :: rest ->
  GoStrings.HasSuffix (GoStrings.ToLower (dns.qName q)) (domain s) = true ->
  ServeDNS lib world s w req st
  = withDefer (deferred lib s req) (freshReply req)
              (resolve lib world s q req (freshReply req)) st.
Proof. intros Hq Hin. unfold ServeDNS. rewrite Hq, Hin. reflexivity. Qed.

Lemma AddressRecords_absent (lib : Lib) (world : World) (s : server) (q : dns.Question)
      (st : State) (path err : string) :
  GoStrings.ToLower (dns.qName q) <> domain s ->
  GoStrings.ToLower (dns.qName q) <> "master." +:+ domain s ->
  questionToPath lib (GoStrings.ToLower (dns.qName q)) = Some path ->
  client_Get world path = inr err ->
  AddressRecords lib world s q st
  = (Return ([], Some err),
     mkState (idCalls st) (exchangeCalls st) (events st ++ [EvGet path])).
Proof.
  intros Hapex Hmaster Hpath Hget. unfold AddressRecords.
  apply String.eqb_neq in Hapex, Hmaster. rewrite Hapex, Hmaster. cbn [orb].
  rewrite Hpath. unfold bind, orPanic, ret, clientGet, emit. rewrite Hget. reflexivity.
Qed.




(** ** [AddressRecords] *)

Lemma clusterMember_state (lib : Lib) (s : server) (q : dns.Question)
      (records : list dns.RR) (m : string) (st : State) :
  snd (clusterMember lib s q records m st) = st.
Proof.
  unfold clusterMember.
  destruct (url_Parse lib m) as [host|]; [|reflexivity].
  destruct (net_SplitHostPort lib host) as [h|]; [|reflexivity].
  destruct (_ && _)%bool; [reflexivity|].
  destruct (net.notNil _); reflexivity.
Qed.

Lemma clusterLoop_state (lib : Lib) (s : server) (q : dns.Question) :
  forall members records st, snd (clusterLoop lib s q records members st) = st.
Proof.
  induction members as [|m rest IH]; intros records st; [reflexivity|].
  cbn [clusterLoop]. unfold bind.
  pose proof (clusterMember_state lib s q records m st) as Hm.
  destruct (clusterMember lib s q records m st) as [[r| |] st1]; cbn [snd] in *;
    subst st1; [apply IH | reflexivity | reflexivity].
Qed.

(** C9.  An A query for [master.<zone>] when the cluster has exactly two
    members, whose URLs hold the hosts 10.0.0.1 and 2001:db8::1:
    [AddressRecords] returns one A record with the address 10.0.0.1 and
    one AAAA record with the address of the IPv6 member, both with the
    configured default TTL in the header.  The only access to the store is
    the call of [GetCluster]: no path of the tree is fetched. *)
Theorem AddressRecords_master_cluster (lib : Lib) (world : World) (s : server)
        (q : dns.Question) (st : State) (m1 m2 hp1 hp2 h1 h2 : string) :
  GoStrings.ToLower (dns.qName q) = "master." +:+ domain s ->
  dns.Qtype q = dns.TypeA ->
  client_GetCluster world = [m1; m2] ->
  url_Parse lib m1 = Some hp1 ->
  net_SplitHostPort lib hp1 = Some h1 ->
  net_ParseIP lib h1 = net.IPv4 10 0 0 1 ->
  url_Parse lib m2 = Some hp2 ->
  net_SplitHostPort lib hp2 = Some h2 ->
  net_ParseIP lib h2 = Example.ip6 ->
  AddressRecords lib world s q st
  = (Return ([dns.A (dns.mkHeader (dns.qName q) dns.TypeA dns.ClassINET (Ttl s))
                    [10; 0; 0; 1];
              dns.AAAA (dns.mkHeader (dns.qName q) dns.TypeAAAA dns.ClassINET (Ttl s))
                       Example.ip6],
             None),
     mkState (idCalls st) (exchangeCalls st) (events st ++ [EvGetCluster])).
Proof.
  intros Hname Hty Hcl Hu1 Hs1 Hp1 Hu2 Hs2 Hp2.
  unfold AddressRecords. rewrite Hname, String.eqb_refl. cbn [orb].
  unfold bind at 1. unfold clientGetCluster, bind at 1. unfold emit, ret at 1.
  rewrite Hcl. cbn [clusterLoop]. unfold bind, clusterMember.
  rewrite Hu1, Hs1, Hp1, Hu2, Hs2, Hp2, Hty. reflexivity.
Qed.

(** The members [http://10.0.0.1:4001] and [http://[2001:db8::1]:4001]. *)
Lemma AddressRecords_master_cluster_witness :
  AddressRecords Example.lib
                 (Example.world Example.emptyStore Example.members (fun _ => 0)
                                Example.noUpstream)
                 (Example.srv [] true)
                 (dns.mkQuestion "Master.SkyDNS.local." dns.TypeA dns.ClassINET) initState
  = (Return ([dns.A (Example.hdrA "Master.SkyDNS.local." 3600) [10; 0; 0; 1];
              dns.AAAA (Example.hdrAAAA "Master.SkyDNS.local." 3600) Example.ip6],
             None),
     mkState 0 0 [EvGetCluster]).
Proof.
  apply (AddressRecords_master_cluster
           Example.lib
           (Example.world Example.emptyStore Example.members (fun _ => 0) Example.noUpstream)
           (Example.srv [] true)
           (dns.mkQuestion "Master.SkyDNS.local." dns.TypeA dns.ClassINET) initState
           "http://10.0.0.1:4001" "http://[2001:db8::1]:4001"
           "10.0.0.1:4001" "[2001:db8::1]:4001" "10.0.0.1" "2001:db8::1");
    vm_compute; reflexivity.
Defined.

Lemma AddressRecords_stored (lib : Lib) (world : World) (s : server) (q : dns.Question)
      (st : State) (path : string) (node : etcd.Node) :
  GoStrings.ToLower (dns.qName q) <> domain s ->
  GoStrings.ToLower (dns.qName q) <> "master." +:+ domain s ->
  questionToPath lib (GoStrings.ToLower (dns.qName q)) = Some path ->
  client_Get world path = inl node ->
  AddressRecords lib world s q st
  = (do records <~ (if RoundRobin s then roundRobin world (nodeRecords lib node q)
                    else ret (nodeRecords lib node q));
     ret (records, None))
      (mkState (idCalls st) (exchangeCalls st) (events st ++ [EvGet path])).
Proof.
  intros Hapex Hmaster Hpath Hget. unfold AddressRecords.
  apply String.eqb_neq in Hapex, Hmaster. rewrite Hapex, Hmaster. cbn [orb].
  rewrite Hpath. unfold bind at 1. unfold orPanic, ret at 1.
  unfold bind at 1. unfold clientGet, bind at 1. unfold emit, ret at 1.
  rewrite Hget. reflexivity.
Qed.

Lemma AddressRecords_cluster (lib : Lib) (world : World) (s : server) (q : dns.Question)
      (st : State) :
  GoStrings.ToLower (dns.qName q) = domain s \/
  GoStrings.ToLower (dns.qName q) = "master." +:+ domain s ->
  AddressRecords lib world s q st
  = (do records <~ clusterLoop lib s q [] (client_GetCluster world);
     ret (records, None))
      (mkState (idCalls st) (exchangeCalls st) (events st ++ [EvGetCluster])).
Proof.
  intros Hname. unfold AddressRecords.
  assert (Hb : (String.eqb (GoStrings.ToLower (dns.qName q)) ("master." +:+ domain s)
               || String.eqb (GoStrings.ToLower (dns.qName q)) (domain s))%bool = true).
  { destruct Hname as [-> | ->]; rewrite String.eqb_refl; [apply orb_true_r | reflexivity]. }
  rewrite Hb. unfold bind at 1. unfold clientGetCluster, bind at 1. unfold emit, ret at 1.
  reflexivity.
Qed.

(** C8, as amended.  With round-robin enabled, the records that
    [AddressRecords] builds from the fetched node (a single leaf or a
    directory walk) are passed through the round-robin reordering before
    they are returned.  The answers for the zone apex and [master.<zone>],
    built from the cluster members, are returned as built: that branch
    returns before the reordering, draws no id and swaps nothing. *)
Theorem AddressRecords_shuffles_stored_records (lib : Lib) (world : World) (s : server)
        (q : dns.Question) (st : State) :
  RoundRobin s = true ->
  (forall path node,
      GoStrings.ToLower (dns.qName q) <> domain s ->
      GoStrings.ToLower (dns.qName q) <> "master." +:+ domain s ->
      questionToPath lib (GoStrings.ToLower (dns.qName q)) = Some path ->
      client_Get world path = inl node ->
      AddressRecords lib world s q st
      = (do records <~ roundRobin world (nodeRecords lib node q); ret (records, None))
          (mkState (idCalls st) (exchangeCalls st) (events st ++ [EvGet path]))) /\
  (GoStrings.ToLower (dns.qName q) = domain s \/
   GoStrings.ToLower (dns.qName q) = "master." +:+ domain s ->
   snd (AddressRecords lib world s q st)
   = mkState (idCalls st) (exchangeCalls st) (events st ++ [EvGetCluster]) /\
   forall records,
     fst (clusterLoop lib s q [] (client_GetCluster world)
                      (mkState (idCalls st) (exchangeCalls st) (events st ++ [EvGetCluster])))
     = Return records ->
     fst (AddressRecords lib world s q st) = Return (records, None)).
Proof.
  intros Hrr. split.
  - intros path node Hapex Hmaster Hpath Hget.
    rewrite (AddressRecords_stored lib world s q st path node) by assumption.
    rewrite Hrr. reflexivity.
  - intros Hname. rewrite (AddressRecords_cluster lib world s q st Hname).
    unfold bind.
    match goal with |- context [clusterLoop lib s q [] ?ms ?s1] =>
      pose proof (clusterLoop_state lib s q ms [] s1) as Hst;
      destruct (clusterLoop lib s q [] ms s1) as [[r| |] st1] end;
      cbn [fst snd] in *; subst st1; (split; [reflexivity|]);
      intros records Hr; inversion Hr; reflexivity.
Qed.

(** The two-instance service, with round-robin enabled. *)
Lemma AddressRecords_shuffles_stored_records_witness :
  AddressRecords Example.lib Example.oddIdsWorld (Example.srv [] true)
                 (dns.mkQuestion "web.skydns.local." dns.TypeA dns.ClassINET) initState
  = (do records <~ roundRobin Example.oddIdsWorld [Example.webA 1; Example.webA 2];
     ret (records, None))
      (mkState 0 0 [EvGet "local/skydns/web"]).
Proof.
  apply (proj1 (AddressRecords_shuffles_stored_records
                  Example.lib Example.oddIdsWorld (Example.srv [] true)
                  (dns.mkQuestion "web.skydns.local." dns.TypeA dns.ClassINET) initState
                  eq_refl)
               "local/skydns/web" Example.webDir).
  - vm_compute. discriminate.
  - vm_compute. discriminate.
  - vm_compute. reflexivity.
  - reflexivity.
Defined.

(** C8 fails as stated.  Round-robin is enabled and [dns.Id()] returns 0:
    the two cluster answers for [master.skydns.local.] come back in the
    order of the members and no id is drawn, while the reordering applied
    to the same two records swaps them. *)
Lemma cluster_answers_are_not_shuffled :
  RoundRobin (Example.srv [] true) = true /\
  AddressRecords Example.lib
                 (Example.world Example.emptyStore Example.members (fun _ => 0)
                                Example.noUpstream)
                 (Example.srv [] true)
                 (dns.mkQuestion "master.skydns.local." dns.TypeA dns.ClassINET) initState
  = (Return ([dns.A (Example.hdrA "master.skydns.local." 3600) [10; 0; 0; 1];
              dns.AAAA (Example.hdrAAAA "master.skydns.local." 3600) Example.ip6],
             None),
     mkState 0 0 [EvGetCluster]) /\
  roundRobin (Example.world Example.emptyStore Example.members (fun _ => 0)
                            Example.noUpstream)
             [dns.A (Example.hdrA "master.skydns.local." 3600) [10; 0; 0; 1];
              dns.AAAA (Example.hdrAAAA "master.skydns.local." 3600) Example.ip6]
             (mkState 0 0 [EvGetCluster])
  = (Return [dns.AAAA (Example.hdrAAAA "master.skydns.local." 3600) Example.ip6;
             dns.A (Example.hdrA "master.skydns.local." 3600) [10; 0; 0; 1]],
     mkState 1 0 [EvGetCluster; EvSwap 0 1]).
Proof. vm_compute. repeat split. Qed.

(** On a directory, one turn of the walk is the walk of its children. *)
Lemma loopAddressNode_dir (lib : Lib) (key value q : string) (ttl t : Z)
      (nodes : list etcd.Node) :
  loopAddressNode lib (etcd.mkNode key value true ttl nodes) q t
  = loopAddressNodes lib nodes q t.
Proof.
  cbn [loopAddressNode]. induction nodes as [|n rest IH]; [reflexivity|].
  cbn [loopAddressNodes]. rewrite <- IH. reflexivity.
Qed.

(** A leaf under an [/A] key gives a record whatever its value: when the
    value is no address, the record's address is the nil slice. *)
Lemma leaf_record_kept (lib : Lib) (key value q : string) (ttl : Z)
      (nodes : list etcd.Node) (qclass : Z) :
  GoStrings.HasSuffix key "/A" = true ->
  net_ParseIP lib value = [] ->
  loopAddressNode lib (etcd.mkNode key value false ttl nodes) q dns.TypeA
  = [dns.A (dns.mkHeader q dns.TypeA dns.ClassINET (uint32 ttl)) []] /\
  nodeRecords lib (etcd.mkNode key value false ttl nodes) (dns.mkQuestion q dns.TypeA qclass)
  = [dns.A (dns.mkHeader q dns.TypeA dns.ClassINET (uint32 ttl)) []].
Proof.
  intros Hkey Hip. split.
  - cbn [loopAddressNode]. rewrite Hkey. cbn [andb]. unfold leafA. rewrite Hip. reflexivity.
  - unfold nodeRecords. cbn [etcd.Dir etcd.Key etcd.Value etcd.TTL dns.Qtype dns.qName negb].
    rewrite Hkey. change (dns.TypeA =? dns.TypeAAAA) with false.
    rewrite andb_false_r. unfold leafA. rewrite Hip. reflexivity.
Qed.

(** The same for a leaf under an [/AAAA] key and an AAAA query. *)
Lemma leaf_record_kept_AAAA (lib : Lib) (key value q : string) (ttl : Z)
      (nodes : list etcd.Node) (qclass : Z) :
  GoStrings.HasSuffix key "/AAAA" = true ->
  net_ParseIP lib value = [] ->
  loopAddressNode lib (etcd.mkNode key value false ttl nodes) q dns.TypeAAAA
  = [dns.AAAA (dns.mkHeader q dns.TypeAAAA dns.ClassINET (uint32 ttl)) []] /\
  nodeRecords lib (etcd.mkNode key value false ttl nodes)
              (dns.mkQuestion q dns.TypeAAAA qclass)
  = [dns.AAAA (dns.mkHeader q dns.TypeAAAA dns.ClassINET (uint32 ttl)) []].
Proof.
  intros Hkey Hip. split.
  - cbn [loopAddressNode]. change (dns.TypeAAAA =? dns.TypeA) with false.
    rewrite andb_false_r, Hkey. cbn [andb]. unfold leafAAAA. rewrite Hip. reflexivity.
  - unfold nodeRecords. cbn [etcd.Dir etcd.Key etcd.Value etcd.TTL dns.Qtype dns.qName negb].
    change (dns.TypeAAAA =? dns.TypeA) with false.
    rewrite andb_false_r, Hkey. unfold leafAAAA. rewrite Hip. reflexivity.
Qed.

(** C5 at a failing input.  An A query for a name whose only leaf, under
    an [/A] key, holds the value [not-an-address]: the answer set holds one
    A record, with a nil address.  The record is not left out, in the
    directory walk as in the single-leaf path. *)
Theorem unparsable_value_still_yields_a_record :
  Example.ParseIP "not-an-address" = [] /\
  AddressRecords Example.lib
                 (Example.world (Example.storeWith "local/skydns/web" Example.badDir) []
                                (fun _ => 0) Example.noUpstream)
                 (Example.srv [] false)
                 (dns.mkQuestion "web.skydns.local." dns.TypeA dns.ClassINET) initState
  = (Return ([dns.A (Example.hdrA "web.skydns.local." 30) []], None),
     mkState 0 0 [EvGet "local/skydns/web"]) /\
  AddressRecords Example.lib
                 (Example.world (Example.storeWith "local/skydns/web" Example.badLeaf) []
                                (fun _ => 0) Example.noUpstream)
                 (Example.srv [] false)
                 (dns.mkQuestion "web.skydns.local." dns.TypeA dns.ClassINET) initState
  = (Return ([dns.A (Example.hdrA "web.skydns.local." 30) []], None),
     mkState 0 0 [EvGet "local/skydns/web"]).
Proof. vm_compute. repeat split. Qed.

(** ** [SOA] *)

Lemma truncateHour_div (now : Z) : truncateHour now = 3600 * (now / 3600).
Proof. unfold truncateHour. pose proof (Z.div_mod now 3600 ltac:(lia)). lia. Qed.

Lemma soaSerial_in_range (s : server) (now : Z) :
  0 <= now < 2 ^ 32 -> dns.soaSerial (SOAat s now) = 3600 * (now / 3600).
Proof.
  intros H. cbn [SOAat dns.soaSerial]. unfold uint32. rewrite truncateHour_div.
  apply Z.mod_small.
  pose proof (Z.div_mod now 3600 ltac:(lia)).
  pose proof (Z.mod_pos_bound now 3600 ltac:(lia)).
  assert (0 <= now / 3600) by (apply Z.div_pos; lia). lia.
Qed.

(** C7, as amended.  Every SOA record the server builds has the primary
    nameserver [master.<zone>], the mailbox [hostmaster.<zone>], refresh
    28800, retry 7200, expire 604800, the configured minimum TTL as
    minimum, and as serial the clock reading truncated to the hour,
    reduced modulo 2^32 by the conversion to [uint32].  For clock readings
    from 0 to 2^32 - 1 the serial is the reading truncated to the hour; two
    readings in the same clock hour give the same serial (at any time);
    and for readings in that range the serial never decreases and is
    strictly larger after an hour boundary. *)
Theorem SOA_fields_and_serial (world : World) (s : server) :
  SOA world s
  = dns.SOA (dns.mkHeader (domain s) dns.TypeSOA dns.ClassINET (Ttl s))
            ("master." +:+ domain s) ("hostmaster." +:+ domain s)
            ((time_Now world - time_Now world mod 3600) mod 2 ^ 32)
            28800 7200 604800 (MinTtl s) /\
  (forall now, 0 <= now < 2 ^ 32 ->
     dns.soaSerial (SOAat s now) = now - now mod 3600) /\
  (forall now now', now / 3600 = now' / 3600 ->
     dns.soaSerial (SOAat s now) = dns.soaSerial (SOAat s now')) /\
  (forall now now', 0 <= now -> now' < 2 ^ 32 -> now / 3600 < now' / 3600 ->
     dns.soaSerial (SOAat s now) < dns.soaSerial (SOAat s now')) /\
  (forall now now', 0 <= now -> now <= now' -> now' < 2 ^ 32 ->
     dns.soaSerial (SOAat s now) <= dns.soaSerial (SOAat s now')).
Proof.
  split; [reflexivity|]. split; [|split; [|split]].
  - intros now H. rewrite soaSerial_in_range by exact H.
    rewrite <- truncateHour_div. reflexivity.
  - intros now now' H. cbn [SOAat dns.soaSerial]. rewrite !truncateHour_div, H.
    reflexivity.
  - intros now now' H0 H1 Hlt.
    assert (now < now').
    { destruct (Z.lt_ge_cases now now') as [|Hge]; [assumption|].
      pose proof (Z.div_le_mono now' now 3600 ltac:(lia) Hge). lia. }
    rewrite !soaSerial_in_range by lia. lia.
  - intros now now' H0 Hle H1.
    pose proof (Z.div_le_mono now now' 3600 ltac:(lia) Hle).
    rewrite !soaSerial_in_range by lia. lia.
Qed.

(** Three readings: 2023-11-14 22:13:20, the last second of that clock
    hour, and the first second of the next. *)
Lemma SOA_fields_and_serial_witness :
  dns.soaSerial (SOAat (Example.srv [] false) 1700000000) = 1699999200 /\
  dns.soaSerial (SOAat (Example.srv [] false) 1700000000)
  = dns.soaSerial (SOAat (Example.srv [] false) 1700002799) /\
  dns.soaSerial (SOAat (Example.srv [] false) 1700002799)
  < dns.soaSerial (SOAat (Example.srv [] false) 1700002800).
Proof.
  destruct (SOA_fields_and_serial
              (Example.world Example.emptyStore [] (fun _ => 0) Example.noUpstream)
              (Example.srv [] false)) as (_ & Hserial & Hsame & Hnext & _).
  split; [|split].
  - rewrite Hserial by lia. reflexivity.
  - apply Hsame. reflexivity.
  - apply Hnext; [lia | lia | vm_compute; reflexivity].
Defined.

(** C7 fails as stated.  The hour that starts 4294969200 seconds after
    the epoch (in 2106) follows the hour that starts at 4294965600; the
    serial of the later hour is 1904: it is not the time truncated to the
    hour, and it is smaller than the serial of the hour before. *)
Lemma SOA_serial_wraps :
  truncateHour 4294965600 = 4294965600 /\
  truncateHour 4294969200 = 4294969200 /\
  dns.soaSerial (SOAat (Example.srv [] false) 4294965600) = 4294965600 /\
  dns.soaSerial (SOAat (Example.srv [] false) 4294969200) = 1904.
Proof. vm_compute. repeat split. Qed.

(** ** [questionToPath] *)

Lemma Split_no_sep (x : string) (c : ascii) :
  GoStrings.ContainsByte x c = false -> GoStrings.Split x c = [x].
Proof.
  induction x as [|d x IH]; [reflexivity|].
  cbn [GoStrings.ContainsByte GoStrings.Split]. intros H.
  apply orb_false_elim in H as [Hd Hx]. rewrite Hd, (IH Hx). reflexivity.
Qed.

Lemma Split_app_sep (x rest : string) (c : ascii) :
  GoStrings.ContainsByte x c = false ->
  GoStrings.Split (x +:+ String c rest) c = x :: GoStrings.Split rest c.
Proof.
  induction x as [|d x IH]; intros H.
  - change ("" +:+ String c rest) with (String c rest).
    cbn [GoStrings.Split]. rewrite Ascii.eqb_refl. reflexivity.
  - cbn [GoStrings.ContainsByte] in H. apply orb_false_elim in H as [Hd Hx].
    change (String d x +:+ String c rest) with (String d (x +:+ String c rest)).
    cbn [GoStrings.Split]. rewrite Hd, (IH Hx). reflexivity.
Qed.

Lemma Split_Join (labels : list string) (c : ascii) :
  labels <> [] ->
  Forall (fun x => GoStrings.ContainsByte x c = false) labels ->
  GoStrings.Split (GoStrings.Join labels (String c EmptyString)) c = labels.
Proof.
  unfold GoStrings.Join.
  induction labels as [|x [|y r] IH]; intros Hne Hall; [congruence | |].
  - cbn. apply Split_no_sep. inversion Hall; assumption.
  - inversion Hall as [|? ? Hx Hr]; subst.
    change (String.concat (String c "") (x :: y :: r))
      with (x +:+ String c (String.concat (String c "") (y :: r))).
    rewrite Split_app_sep by exact Hx. f_equal. apply IH; [discriminate | exact Hr].
Qed.

(** X16.  For a name with at least one label whose labels hold no
    slash, splitting the path of [questionToPath] at the slashes and
    reversing the segments gives back the labels of the name. *)
Lemma questionToPath_round_trip (lib : Lib) (s path : string) :
  dns_SplitDomainName lib s <> [] ->
  Forall (fun x => GoStrings.ContainsByte x "/" = false) (dns_SplitDomainName lib s) ->
  questionToPath lib s = Some path ->
  reverse (GoStrings.Split path "/") = dns_SplitDomainName lib s.
Proof.
  intros Hne Hall. rewrite questionToPath_reverse. intros [= <-].
  rewrite Split_Join.
  - apply reverse_involutive.
  - intros H. apply (f_equal reverse) in H. rewrite reverse_involutive in H.
    apply Hne. exact H.
  - apply Forall_reverse. exact Hall.
Qed.

(** C6 at a failing input.  [b.a.] is mapped to [a/b].  The name [a/b.c.]
    has the labels [a/b] and [c] and is mapped to [c/a/b]; the segments of
    that path, in reverse order, are [b], [a], [c], not the labels of the
    name: [b.a.c.] has the same path. *)
Theorem questionToPath_slash_in_label :
  questionToPath Example.lib "b.a." = Some "a/b" /\
  Example.SplitDomainName "a/b.c." = ["a/b"; "c"] /\
  questionToPath Example.lib "a/b.c." = Some "c/a/b" /\
  reverse (GoStrings.Split "c/a/b" "/") = ["b"; "a"; "c"] /\
  questionToPath Example.lib "b.a.c." = Some "c/a/b".
Proof. vm_compute. repeat split. Qed.

(** * Further properties *)

(** ** Strings *)

Lemma substring_skip (a b : string) :
  substring (String.length a) (String.length b) (a +:+ b) = b.
Proof.
  induction a as [|c a IH].
  - change ("" +:+ b) with b. cbn [String.length].
    induction b as [|d b IHb]; [reflexivity|]. cbn. rewrite IHb. reflexivity.
  - change (String c a +:+ b) with (String c (a +:+ b)). cbn [String.length substring].
    exact IH.
Qed.

Lemma length_app (a b : string) :
  String.length (a +:+ b) = (String.length a + String.length b)%nat.
Proof.
  induction a as [|c a IH]; [reflexivity|].
  change (String c a +:+ b) with (String c (a +:+ b)). cbn [String.length].
  rewrite IH. reflexivity.
Qed.

Lemma HasSuffix_app (a b : string) : GoStrings.HasSuffix (a +:+ b) b = true.
Proof.
  unfold GoStrings.HasSuffix. rewrite length_app.
  replace (String.length a + String.length b - String.length b)%nat
    with (String.length a) by lia.
  rewrite substring_skip, String.eqb_refl.
  rewrite (proj2 (Nat.leb_le _ _)) by lia. reflexivity.
Qed.

Lemma substring_cut (s : string) :
  forall n, (n <= String.length s)%nat ->
    s = substring 0 n s +:+ substring n (String.length s - n) s.
Proof.
  induction s as [|c s IH]; intros n Hn.
  - cbn in Hn. assert (n = 0%nat) as -> by lia. reflexivity.
  - destruct n as [|n].
    + change (substring 0 0 (String c s)) with "". change ("" +:+ ?x) with x.
      cbn [String.length Nat.sub substring].
      clear. f_equal. induction s as [|d s IHs]; [reflexivity|].
      cbn. rewrite <- IHs. reflexivity.
    + cbn [String.length] in *. cbn [substring Nat.sub].
      change (String c ?x +:+ ?y) with (String c (x +:+ y)).
      f_equal. apply IH. lia.
Qed.

Lemma HasSuffix_inv (s suffix : string) :
  GoStrings.HasSuffix s suffix = true -> exists prefix, s = prefix +:+ suffix.
Proof.
  unfold GoStrings.HasSuffix. intros H. apply andb_true_iff in H as [Hle Heq].
  apply Nat.leb_le in Hle. apply String.eqb_eq in Heq.
  exists (substring 0 (String.length s - String.length suffix) s).
  pose proof (substring_cut s (String.length s - String.length suffix) ltac:(lia)) as Hc.
  replace (String.length s - (String.length s - String.length suffix))%nat
    with (String.length suffix) in Hc by lia.
  rewrite Heq in Hc. exact Hc.
Qed.

Lemma lowerByte_idem (c : ascii) :
  GoStrings.lowerByte (GoStrings.lowerByte c) = GoStrings.lowerByte c.
Proof. destruct c as [[] [] [] [] [] [] [] []]; reflexivity. Qed.

Lemma ToLower_idem (s : string) : GoStrings.ToLower (GoStrings.ToLower s) = GoStrings.ToLower s.
Proof.
  induction s as [|c s IH]; [reflexivity|].
  cbn [GoStrings.ToLower]. rewrite lowerByte_idem, IH. reflexivity.
Qed.

Lemma ToLower_app (a b : string) :
  GoStrings.ToLower (a +:+ b) = GoStrings.ToLower a +:+ GoStrings.ToLower b.
Proof.
  induction a as [|c a IH]; [reflexivity|].
  change (String c a +:+ b) with (String c (a +:+ b)). cbn [GoStrings.ToLower].
  rewrite IH. reflexivity.
Qed.

(** A key in lower case does not end in [/A] or [/AAAA]. *)
Lemma lower_key_no_suffix (key : string) :
  GoStrings.ToLower key = key ->
  GoStrings.HasSuffix key "/A" = false /\ GoStrings.HasSuffix key "/AAAA" = false.
Proof.
  intros Hlow. split.
  - destruct (GoStrings.HasSuffix key "/A") eqn:H; [|reflexivity].
    apply HasSuffix_inv in H as [pre ->]. rewrite ToLower_app in Hlow.
    apply (f_equal (fun s => GoStrings.HasSuffix s "/A")) in Hlow.
    rewrite HasSuffix_app in Hlow.
    change (GoStrings.ToLower "/A") with "/a" in Hlow.
    unfold GoStrings.HasSuffix in Hlow. rewrite length_app in Hlow.
    replace (String.length (GoStrings.ToLower pre) + String.length "/a" - String.length "/A")%nat
      with (String.length (GoStrings.ToLower pre)) in Hlow by (cbn [String.length]; lia).
    change (String.length "/A") with (String.length "/a") in Hlow.
    rewrite substring_skip in Hlow. cbn in Hlow.
    apply andb_true_iff in Hlow as [_ Hlow]. discriminate.
  - destruct (GoStrings.HasSuffix key "/AAAA") eqn:H; [|reflexivity].
    apply HasSuffix_inv in H as [pre ->]. rewrite ToLower_app in Hlow.
    apply (f_equal (fun s => GoStrings.HasSuffix s "/AAAA")) in Hlow.
    rewrite HasSuffix_app in Hlow.
    change (GoStrings.ToLower "/AAAA") with "/aaaa" in Hlow.
    unfold GoStrings.HasSuffix in Hlow. rewrite length_app in Hlow.
    replace (String.length (GoStrings.ToLower pre) + String.length "/aaaa" - String.length "/AAAA")%nat
      with (String.length (GoStrings.ToLower pre)) in Hlow by (cbn [String.length]; lia).
    change (String.length "/AAAA") with (String.length "/aaaa") in Hlow.
    rewrite substring_skip in Hlow. cbn in Hlow.
    apply andb_true_iff in Hlow as [_ Hlow]. discriminate.
Qed.

(** ** The authoritative path, branch by branch *)

Lemma questionToPath_storePath (lib : Lib) (q : dns.Question) :
  questionToPath lib (GoStrings.ToLower (dns.qName q)) = Some (storePath lib q).
Proof. apply questionToPath_reverse. Qed.

(** [SRVRecords] fetches the path and returns no record; its error is the
    error of the fetch. *)
Lemma SRVRecords_run (lib : Lib) (world : World) (s : server) (q : dns.Question)
      (st : State) :
  SRVRecords lib world s q st
  = (Return ([], [], match client_Get world (storePath lib q) with
                     | inr err => Some err
                     | inl _ => None
                     end),
     addEvents st [EvGet (storePath lib q)]).
Proof.
  unfold SRVRecords. rewrite questionToPath_storePath.
  unfold bind, orPanic, ret, clientGet, bind, emit, ret, addEvents.
  destruct (client_Get world (storePath lib q)); reflexivity.
Qed.

Lemma Msg_append_nothing (m : dns.Msg) :
  dns.setExtra (dns.setAnswer m (dns.Answer m ++ [])) (dns.Extra m ++ []) = m.
Proof. destruct m. cbn. rewrite !app_nil_r. reflexivity. Qed.

Lemma serviceAnswer_run (lib : Lib) (world : World) (s : server) (q : dns.Question)
      (req m : dns.Msg) (st : State) :
  serviceAnswer lib world s q req m st
  = (Return (settle world s req m (fetchFails world (storePath lib q))),
     addEvents st [EvGet (storePath lib q)]).
Proof.
  unfold serviceAnswer, bind. rewrite SRVRecords_run.
  unfold settle, fetchFails.
  destruct (client_Get world (storePath lib q)) as [node|err].
  - rewrite bool_decide_eq_false_2 by (intros H; apply H; reflexivity).
    cbn [andb]. rewrite Msg_append_nothing.
    destruct ((dns.Qtype q =? dns.TypeANY) || (dns.Qtype q =? dns.TypeSRV))%bool;
      destruct (len (dns.Answer m) =? 0); reflexivity.
  - rewrite bool_decide_eq_true_2 by discriminate. cbn [andb].
    rewrite Msg_append_nothing.
    destruct ((dns.Qtype q =? dns.TypeANY) || (dns.Qtype q =? dns.TypeSRV))%bool;
      destruct (len (dns.Answer m) =? 0); reflexivity.
Qed.

Lemma len_zero {A} (l : list A) : (len l =? 0) = true <-> l = [].
Proof.
  unfold len. destruct l; cbn [length]; split; intros H; try reflexivity;
    try discriminate; apply Z.eqb_eq in H; lia.
Qed.

Lemma settle_shape (world : World) (s : server) (req : dns.Msg) (q : dns.Question)
      (rest : list dns.Question) (records : list dns.RR) (missing : bool) :
  dns.Questions req = q :: rest ->
  replyShape world s req q
             (settle world s req (dns.setAnswer (freshReply req) records) missing).
Proof.
  intros Hq. unfold settle.
  destruct records as [|r records].
  - change (len (dns.Answer (dns.setAnswer (freshReply req) [])) =? 0) with true.
    destruct missing; cbn [andb]; unfold replyShape; cbn; rewrite Hq;
      intuition (try reflexivity; try congruence).
  - replace (len (dns.Answer (dns.setAnswer (freshReply req) (r :: records))) =? 0)
      with false by (symmetry; apply not_true_iff_false; rewrite len_zero; discriminate).
    rewrite andb_false_r. unfold replyShape. cbn. rewrite Hq.
    intuition (try reflexivity; try congruence).
Qed.

Lemma nameError_shape (world : World) (s : server) (req : dns.Msg) (q : dns.Question)
      (rest : list dns.Question) :
  dns.Questions req = q :: rest ->
  replyShape world s req q (nameError world s req (freshReply req)).
Proof.
  intros Hq. unfold replyShape. cbn. rewrite Hq.
  intuition (try reflexivity; try congruence).
Qed.

(** The cluster loop keeps the state, and panics with one message only. *)
Lemma clusterLoop_outcome (lib : Lib) (s : server) (q : dns.Question) :
  forall members records st,
    (exists records', clusterLoop lib s q records members st = (Return records', st)) \/
    clusterLoop lib s q records members st = (GoPanic "skydns: internal error", st).
Proof.
  induction members as [|m rest IH]; intros records st.
  - left. exists records. reflexivity.
  - cbn [clusterLoop]. unfold bind, clusterMember.
    destruct (url_Parse lib m) as [host|]; [|apply IH].
    destruct (net_SplitHostPort lib host) as [h|]; [|apply IH].
    destruct (_ && _)%bool; [apply IH|].
    destruct (net.notNil _); [apply IH|]. right. reflexivity.
Qed.

Lemma roundRobin_quiet (world : World) (records : list dns.RR) (st : State) :
  exists records' st' evs,
    roundRobin world records st = (Return records', st') /\
    records' ≡ₚ records /\
    events st' = events st ++ evs /\
    exchangeCalls st' = exchangeCalls st /\
    Forall (fun e => isQuiet e = true) evs /\
    Forall (fun e => isEvSwap e = true) evs.
Proof.
  destruct (roundRobin_spec world records st)
    as (r' & st' & swaps & Hrun & Hperm & Hev & Hex & Hall & _).
  exists r', st', swaps. repeat split; try assumption.
  eapply Forall_impl; [exact Hall|]. intros [] H; (discriminate H || reflexivity).
Qed.

(** What [AddressRecords] does to the outside, whatever it returns: store
    accesses and swaps only; an error comes with no record; the only
    panic is the one of the cluster loop. *)
Lemma AddressRecords_outcome (lib : Lib) (world : World) (s : server) (q : dns.Question)
      (st : State) :
  exists evs,
    events (snd (AddressRecords lib world s q st)) = events st ++ evs /\
    exchangeCalls (snd (AddressRecords lib world s q st)) = exchangeCalls st /\
    Forall (fun e => isQuiet e = true) evs /\
    match fst (AddressRecords lib world s q st) with
    | Return (records, Some _) => records = []
    | Return (_, None) => True
    | GoPanic msg => msg = "skydns: internal error"
    | OutOfFuel => False
    end.
Proof.
  destruct (String.eqb_spec (GoStrings.ToLower (dns.qName q)) (domain s)) as [Hapex|Hapex];
    [|destruct (String.eqb_spec (GoStrings.ToLower (dns.qName q)) ("master." +:+ domain s))
        as [Hmaster|Hmaster]].
  { rewrite AddressRecords_cluster by auto. unfold bind.
    match goal with |- context [clusterLoop lib s q [] ?ms ?s1] =>
      destruct (clusterLoop_outcome lib s q ms [] s1) as [[r' ->] | ->] end;
      exists [EvGetCluster]; cbn; repeat split; repeat constructor. }
  { rewrite AddressRecords_cluster by auto. unfold bind.
    match goal with |- context [clusterLoop lib s q [] ?ms ?s1] =>
      destruct (clusterLoop_outcome lib s q ms [] s1) as [[r' ->] | ->] end;
      exists [EvGetCluster]; cbn; repeat split; repeat constructor. }
  destruct (client_Get world (storePath lib q)) as [node|err] eqn:Hget.
  - rewrite (AddressRecords_stored lib world s q st (storePath lib q) node)
      by (try assumption; apply questionToPath_storePath).
    unfold bind. destruct (RoundRobin s).
    + match goal with |- context [roundRobin world ?rs ?s1] =>
        destruct (roundRobin_quiet world rs s1)
          as (r' & st' & evs & -> & _ & Hev & Hex & Hall & _) end.
      exists (EvGet (storePath lib q) :: evs). cbn [fst snd ret].
      cbn [events exchangeCalls] in Hev, Hex.
      rewrite Hev, Hex, <- app_assoc. repeat split. constructor; [reflexivity|exact Hall].
    + exists [EvGet (storePath lib q)]. cbn. repeat split. repeat constructor.
  - rewrite (AddressRecords_absent lib world s q st (storePath lib q) err)
      by (try assumption; apply questionToPath_storePath).
    exists [EvGet (storePath lib q)]. cbn. repeat split. repeat constructor.
Qed.

Lemma addressAnswer_outcome (lib : Lib) (world : World) (s : server) (q : dns.Question)
      (rest : list dns.Question) (req : dns.Msg) (st : State) :
  dns.Questions req = q :: rest ->
  exists evs,
    events (snd (addressAnswer lib world s q req (freshReply req) st)) = events st ++ evs /\
    exchangeCalls (snd (addressAnswer lib world s q req (freshReply req) st))
    = exchangeCalls st /\
    Forall (fun e => isQuiet e = true) evs /\
    match fst (addressAnswer lib world s q req (freshReply req) st) with
    | Return m => replyShape world s req q m
    | GoPanic msg => msg = "skydns: internal error"
    | OutOfFuel => False
    end.
Proof.
  intros Hq. unfold addressAnswer.
  destruct ((dns.Qtype q =? dns.TypeA) || (dns.Qtype q =? dns.TypeAAAA))%bool.
  - unfold bind.
    destruct (AddressRecords_outcome lib world s q st) as (evs & Hev & Hex & Hall & Hout).
    destruct (AddressRecords lib world s q st) as [[[records [err|]]|msg|] st1];
      cbn [fst snd] in *.
    + exists evs. unfold ret. cbn [fst snd].
      split; [exact Hev|]. split; [exact Hex|]. split; [exact Hall|].
      eapply nameError_shape; exact Hq.
    + rewrite serviceAnswer_run. cbn [fst snd addEvents events exchangeCalls].
      exists (evs ++ [EvGet (storePath lib q)]). rewrite Hev, Hex, <- app_assoc.
      split; [reflexivity|]. split; [reflexivity|]. split.
      * apply Forall_app. split; [exact Hall | repeat constructor].
      * change (dns.Answer (freshReply req) ++ records) with records.
        eapply settle_shape; exact Hq.
    + exists evs. split; [exact Hev|]. split; [exact Hex|]. split; [exact Hall|exact Hout].
    + contradiction.
  - rewrite serviceAnswer_run. cbn [fst snd addEvents events exchangeCalls].
    exists [EvGet (storePath lib q)].
    split; [reflexivity|]. split; [reflexivity|]. split; [repeat constructor|].
    change (freshReply req) with (dns.setAnswer (freshReply req) []).
    eapply settle_shape; exact Hq.
Qed.

Lemma resolve_outcome (lib : Lib) (world : World) (s : server) (q : dns.Question)
      (rest : list dns.Question) (req : dns.Msg) (st : State) :
  dns.Questions req = q :: rest ->
  exists evs,
    events (snd (resolve lib world s q req (freshReply req) st)) = events st ++ evs /\
    exchangeCalls (snd (resolve lib world s q req (freshReply req) st)) = exchangeCalls st /\
    Forall (fun e => isQuiet e = true) evs /\
    match fst (resolve lib world s q req (freshReply req) st) with
    | Return m => replyShape world s req q m
    | GoPanic msg => msg = "skydns: internal error"
    | OutOfFuel => False
    end.
Proof.
  intros Hq. unfold resolve.
  destruct (String.eqb _ (domain s)); [|eapply addressAnswer_outcome; exact Hq].
  destruct (dns.Qtype q =? dns.TypeDNSKEY).
  - destruct (PubKey s) as [key|]; [|eapply addressAnswer_outcome; exact Hq].
    exists []. unfold ret. cbn [fst snd]. rewrite app_nil_r.
    split; [reflexivity|]. split; [reflexivity|]. split; [constructor|].
    unfold replyShape. cbn. rewrite Hq.
    intuition (try reflexivity; try congruence).
  - destruct (dns.Qtype q =? dns.TypeSOA); [|eapply addressAnswer_outcome; exact Hq].
    exists []. unfold ret. cbn [fst snd]. rewrite app_nil_r.
    split; [reflexivity|]. split; [reflexivity|]. split; [constructor|].
    unfold replyShape. cbn. rewrite Hq.
    intuition (try reflexivity; try congruence).
Qed.

(** The handler on a request for a name that ends with the zone: quiet
    events, then one written message; it returns, or panics with the
    message of the cluster loop after writing the reply as set up. *)
Lemma ServeDNS_authoritative_outcome (lib : Lib) (world : World) (s : server)
      (w : ResponseWriter) (req : dns.Msg) (q : dns.Question)
      (rest : list dns.Question) (st : State) :
  dns.Questions req = q :: rest ->
  GoStrings.HasSuffix (GoStrings.ToLower (dns.qName q)) (domain s) = true ->
  exists evs m,
    events (snd (ServeDNS lib world s w req st))
    = events st ++ evs ++ [EvWriteMsg (signedReply lib s req m)] /\
    exchangeCalls (snd (ServeDNS lib world s w req st)) = exchangeCalls st /\
    Forall (fun e => isQuiet e = true) evs /\
    ((fst (ServeDNS lib world s w req st) = Return tt /\ replyShape world s req q m) \/
     (fst (ServeDNS lib world s w req st) = GoPanic "skydns: internal error" /\
      m = freshReply req)).
Proof.
  intros Hq Hin. rewrite (ServeDNS_inside_zone lib world s w req q rest st Hq Hin).
  unfold withDefer.
  destruct (resolve_outcome lib world s q rest req st Hq) as (evs & Hev & Hex & Hall & Hout).
  destruct (resolve lib world s q req (freshReply req) st) as [[m|msg|] st1];
    cbn [fst snd] in *.
  - exists evs, m. unfold deferred, WriteMsg, emit. cbn [fst snd events exchangeCalls].
    rewrite Hev, Hex, <- app_assoc.
    split; [reflexivity|]. split; [reflexivity|]. split; [exact Hall|].
    left. split; [reflexivity|exact Hout].
  - exists evs, (freshReply req). unfold deferred, WriteMsg, emit.
    cbn [fst snd events exchangeCalls].
    rewrite Hev, Hex, <- app_assoc. subst msg.
    split; [reflexivity|]. split; [reflexivity|]. split; [exact Hall|].
    right. split; reflexivity.
  - contradiction.
Qed.

(** X1.  A request whose lower-cased question name ends with the zone
    is answered by the server itself: [ServeDNS] makes no upstream
    exchange and writes exactly one message, as its last event, after
    store accesses, cluster listings and swaps only.  It returns, or panics with
    [skydns: internal error] (a cluster member without an address), and
    it never runs out of fuel. *)
Theorem ServeDNS_zone_suffix_one_reply (lib : Lib) (world : World) (s : server)
        (w : ResponseWriter) (req : dns.Msg) (q : dns.Question)
        (rest : list dns.Question) (st : State) (prefix : string) :
  dns.Questions req = q :: rest ->
  GoStrings.ToLower (dns.qName q) = prefix +:+ domain s ->
  exists evs m,
    events (snd (ServeDNS lib world s w req st)) = events st ++ evs ++ [EvWriteMsg m] /\
    Forall (fun e => isQuiet e = true) evs /\
    exchangeCalls (snd (ServeDNS lib world s w req st)) = exchangeCalls st /\
    (fst (ServeDNS lib world s w req st) = Return tt \/
     fst (ServeDNS lib world s w req st) = GoPanic "skydns: internal error").
Proof.
  intros Hq Hname.
  destruct (ServeDNS_authoritative_outcome lib world s w req q rest st Hq)
    as (evs & m & Hev & Hex & Hall & Hout).
  { rewrite Hname. apply HasSuffix_app. }
  exists evs, (signedReply lib s req m).
  split; [exact Hev|]. split; [exact Hall|]. split; [exact Hex|].
  destruct Hout as [[-> _] | [-> _]]; auto.
Qed.

Lemma ServeDNS_zone_suffix_one_reply_witness :
  exists evs m,
    events (snd (ServeDNS Example.lib
                   (Example.world Example.emptyStore [] (fun _ => 0) Example.noUpstream)
                   (Example.srv ["8.8.8.8:53"] false) Example.udp
                   (Example.query 7 "NotSkyDNS.local." dns.TypeA) initState))
    = events initState ++ evs ++ [EvWriteMsg m] /\
    Forall (fun e => isQuiet e = true) evs.
Proof.
  destruct (ServeDNS_zone_suffix_one_reply
              Example.lib
              (Example.world Example.emptyStore [] (fun _ => 0) Example.noUpstream)
              (Example.srv ["8.8.8.8:53"] false) Example.udp
              (Example.query 7 "NotSkyDNS.local." dns.TypeA)
              (dns.mkQuestion "NotSkyDNS.local." dns.TypeA dns.ClassINET) [] initState
              "not" eq_refl eq_refl) as (evs & m & Hev & Hall & _).
  exists evs, m. split; assumption.
Defined.

(** X2.  When [ServeDNS] returns for a request inside the zone, the
    written message is the reply [m] after the DNSSEC step, where [m]
    has the id and the first question of the request, the response,
    authoritative and recursion-available bits set, no additional
    record, rcode NOERROR or NXDOMAIN, the SOA record as its only
    authority record when the answer section is empty, and no authority
    record and rcode NOERROR when it is not. *)
Theorem ServeDNS_reply_shape (lib : Lib) (world : World) (s : server)
        (w : ResponseWriter) (req : dns.Msg) (q : dns.Question)
        (rest : list dns.Question) (st st' : State) :
  dns.Questions req = q :: rest ->
  GoStrings.HasSuffix (GoStrings.ToLower (dns.qName q)) (domain s) = true ->
  ServeDNS lib world s w req st = (Return tt, st') ->
  exists evs m,
    events st' = events st ++ evs ++ [EvWriteMsg (signedReply lib s req m)] /\
    replyShape world s req q m.
Proof.
  intros Hq Hin Hrun.
  destruct (ServeDNS_authoritative_outcome lib world s w req q rest st Hq Hin)
    as (evs & m & Hev & _ & _ & Hout).
  rewrite Hrun in Hev, Hout. cbn [fst snd] in Hev, Hout.
  exists evs, m. split; [exact Hev|].
  destruct Hout as [[_ Hshape] | [Hpanic _]]; [exact Hshape | discriminate].
Qed.

Lemma ServeDNS_reply_shape_witness :
  exists evs m,
    events (mkState 1 0
              [EvGet "local/skydns/web"; EvGet "local/skydns/web";
               EvWriteMsg (dns.setAnswer
                             (freshReply (Example.query 0 "web.skydns.local." dns.TypeA))
                             [Example.webA 1; Example.webA 2])])
    = events initState ++ evs
        ++ [EvWriteMsg (signedReply Example.lib (Example.srv [] true)
                                    (Example.query 0 "web.skydns.local." dns.TypeA) m)] /\
    replyShape Example.oddIdsWorld (Example.srv [] true)
               (Example.query 0 "web.skydns.local." dns.TypeA)
               (dns.mkQuestion "web.skydns.local." dns.TypeA dns.ClassINET) m.
Proof.
  apply (ServeDNS_reply_shape Example.lib Example.oddIdsWorld (Example.srv [] true)
           Example.udp (Example.query 0 "web.skydns.local." dns.TypeA)
           (dns.mkQuestion "web.skydns.local." dns.TypeA dns.ClassINET) [] initState).
  - reflexivity.
  - vm_compute. reflexivity.
  - vm_compute. reflexivity.
Defined.

(** X3.  At the zone apex a query of type SOA is answered with the
    synthesized SOA record alone, and a query of type DNSKEY with the
    configured public key alone when a key is configured; in both cases
    neither the store nor the cluster is accessed and no id is drawn. *)
Theorem ServeDNS_apex_SOA_and_DNSKEY (lib : Lib) (world : World) (s : server)
        (w : ResponseWriter) (req : dns.Msg) (q : dns.Question)
        (rest : list dns.Question) (st : State) :
  dns.Questions req = q :: rest ->
  GoStrings.ToLower (dns.qName q) = domain s ->
  (dns.Qtype q = dns.TypeSOA ->
   ServeDNS lib world s w req st
   = (Return tt,
      addEvents st [EvWriteMsg (signedReply lib s req
                                  (dns.setAnswer (freshReply req) [SOA world s]))])) /\
  (forall key, dns.Qtype q = dns.TypeDNSKEY -> PubKey s = Some key ->
   ServeDNS lib world s w req st
   = (Return tt,
      addEvents st [EvWriteMsg (signedReply lib s req
                                  (dns.setAnswer (freshReply req) [key]))])).
Proof.
  intros Hq Hname.
  assert (Hin : GoStrings.HasSuffix (GoStrings.ToLower (dns.qName q)) (domain s) = true).
  { rewrite Hname. apply (HasSuffix_app "" (domain s)). }
  rewrite (ServeDNS_inside_zone lib world s w req q rest st Hq Hin).
  unfold withDefer, resolve. rewrite Hname, String.eqb_refl.
  split.
  - intros ->. reflexivity.
  - intros key -> ->. reflexivity.
Qed.

Lemma ServeDNS_apex_SOA_and_DNSKEY_witness :
  ServeDNS Example.lib
           (Example.world Example.emptyStore Example.members (fun _ => 0) Example.noUpstream)
           (Example.srv [] false) Example.udp
           (Example.query 7 "SkyDNS.Local." dns.TypeSOA) initState
  = (Return tt,
     mkState 0 0
       [EvWriteMsg
          (dns.setAnswer (freshReply (Example.query 7 "SkyDNS.Local." dns.TypeSOA))
             [dns.SOA (dns.mkHeader "skydns.local." dns.TypeSOA dns.ClassINET 3600)
                      "master.skydns.local." "hostmaster.skydns.local."
                      1699999200 28800 7200 604800 60])]).
Proof.
  apply (proj1 (ServeDNS_apex_SOA_and_DNSKEY
                  Example.lib
                  (Example.world Example.emptyStore Example.members (fun _ => 0)
                                 Example.noUpstream)
                  (Example.srv [] false) Example.udp
                  (Example.query 7 "SkyDNS.Local." dns.TypeSOA)
                  (dns.mkQuestion "SkyDNS.Local." dns.TypeSOA dns.ClassINET) [] initState
                  eq_refl eq_refl)).
  reflexivity.
Defined.

(** X4.  A query inside the zone for a type other than A and AAAA (SRV
    and ANY included; at the apex also other than SOA, and other than
    DNSKEY when a key is configured) fetches the path of the name once
    and never carries an answer: the reply has an empty answer section
    and the SOA record as authority, with rcode NXDOMAIN when the fetch
    fails and NOERROR (no data) when it succeeds. *)
Theorem ServeDNS_other_types_no_answer (lib : Lib) (world : World) (s : server)
        (w : ResponseWriter) (req : dns.Msg) (q : dns.Question)
        (rest : list dns.Question) (st : State) :
  dns.Questions req = q :: rest ->
  GoStrings.HasSuffix (GoStrings.ToLower (dns.qName q)) (domain s) = true ->
  dns.Qtype q <> dns.TypeA ->
  dns.Qtype q <> dns.TypeAAAA ->
  (GoStrings.ToLower (dns.qName q) = domain s ->
   dns.Qtype q <> dns.TypeSOA /\ (dns.Qtype q = dns.TypeDNSKEY -> PubKey s = None)) ->
  let m := settle world s req (freshReply req) (fetchFails world (storePath lib q)) in
  ServeDNS lib world s w req st
  = (Return tt,
     addEvents st [EvGet (storePath lib q); EvWriteMsg (signedReply lib s req m)]) /\
  dns.Answer m = [] /\
  dns.Ns m = [SOA world s] /\
  dns.Rcode m = (if fetchFails world (storePath lib q)
                 then dns.RcodeNameError else dns.RcodeSuccess).
Proof.
  intros Hq Hin HA HAAAA Hapex m. split.
  - rewrite (ServeDNS_inside_zone lib world s w req q rest st Hq Hin).
    assert (Haddr : addressAnswer lib world s q req (freshReply req) st
                    = (Return m, addEvents st [EvGet (storePath lib q)])).
    { unfold addressAnswer.
      rewrite (proj2 (Z.eqb_neq _ _) HA), (proj2 (Z.eqb_neq _ _) HAAAA). cbn [orb].
      apply serviceAnswer_run. }
    unfold withDefer, resolve.
    destruct (String.eqb_spec (GoStrings.ToLower (dns.qName q)) (domain s)) as [He|He].
    + destruct (Hapex He) as [HSOA HKEY].
      destruct (Z.eqb_spec (dns.Qtype q) dns.TypeDNSKEY) as [Hk|Hk].
      * rewrite (HKEY Hk), Haddr. unfold deferred, WriteMsg, emit, addEvents.
        cbn [idCalls exchangeCalls events]. rewrite <- app_assoc. reflexivity.
      * rewrite (proj2 (Z.eqb_neq _ _) HSOA), Haddr.
        unfold deferred, WriteMsg, emit, addEvents.
        cbn [idCalls exchangeCalls events]. rewrite <- app_assoc. reflexivity.
    + rewrite Haddr. unfold deferred, WriteMsg, emit, addEvents.
      cbn [idCalls exchangeCalls events]. rewrite <- app_assoc. reflexivity.
  - subst m. unfold settle.
    change (len (dns.Answer (freshReply req)) =? 0) with true.
    destruct (fetchFails world (storePath lib q)); repeat split.
Qed.

Lemma ServeDNS_other_types_no_answer_witness :
  exists m,
    ServeDNS Example.lib Example.oddIdsWorld (Example.srv [] true) Example.udp
             (Example.query 9 "web.skydns.local." dns.TypeSRV) initState
    = (Return tt, mkState 0 0 [EvGet "local/skydns/web"; EvWriteMsg m]) /\
    dns.Answer m = [] /\ dns.Rcode m = dns.RcodeSuccess.
Proof.
  destruct (ServeDNS_other_types_no_answer
              Example.lib Example.oddIdsWorld (Example.srv [] true) Example.udp
              (Example.query 9 "web.skydns.local." dns.TypeSRV)
              (dns.mkQuestion "web.skydns.local." dns.TypeSRV dns.ClassINET) [] initState)
    as (Hrun & Hans & _ & Hrcode).
  - reflexivity.
  - vm_compute. reflexivity.
  - vm_compute. discriminate.
  - vm_compute. discriminate.
  - vm_compute. discriminate.
  - eexists. split; [exact Hrun|]. split; [exact Hans | exact Hrcode].
Defined.

(** X5.  An A or AAAA query for a name inside the zone, other than the
    apex and [master.<zone>], whose path is in the store: [ServeDNS]
    returns after fetching the path twice (once in [AddressRecords],
    once in [SRVRecords]) with only swaps in between, and writes a
    NOERROR reply whose answer section is a permutation of the records
    of the node (the records themselves, with no swap, when round-robin
    is off); the authority section holds the SOA record exactly when
    there is no record. *)
Theorem ServeDNS_stored_addresses (lib : Lib) (world : World) (s : server)
        (w : ResponseWriter) (req : dns.Msg) (q : dns.Question)
        (rest : list dns.Question) (st : State) (node : etcd.Node) :
  dns.Questions req = q :: rest ->
  GoStrings.HasSuffix (GoStrings.ToLower (dns.qName q)) (domain s) = true ->
  dns.Qtype q = dns.TypeA \/ dns.Qtype q = dns.TypeAAAA ->
  GoStrings.ToLower (dns.qName q) <> domain s ->
  GoStrings.ToLower (dns.qName q) <> "master." +:+ domain s ->
  client_Get world (storePath lib q) = inl node ->
  exists records swaps st',
    ServeDNS lib world s w req st = (Return tt, st') /\
    records ≡ₚ nodeRecords lib node q /\
    (RoundRobin s = false -> records = nodeRecords lib node q /\ swaps = []) /\
    Forall (fun e => isEvSwap e = true) swaps /\
    events st'
    = events st ++ [EvGet (storePath lib q)] ++ swaps
        ++ [EvGet (storePath lib q);
            EvWriteMsg (signedReply lib s req
                          (settle world s req (dns.setAnswer (freshReply req) records)
                                  false))] /\
    dns.Answer (settle world s req (dns.setAnswer (freshReply req) records) false)
    = records /\
    dns.Rcode (settle world s req (dns.setAnswer (freshReply req) records) false)
    = dns.RcodeSuccess /\
    dns.Ns (settle world s req (dns.setAnswer (freshReply req) records) false)
    = (if len records =? 0 then [SOA world s] else []).
Proof.
  intros Hq Hin Hty Hapex Hmaster Hget.
  assert (Hshape : forall records,
    dns.Answer (settle world s req (dns.setAnswer (freshReply req) records) false) = records /\
    dns.Rcode (settle world s req (dns.setAnswer (freshReply req) records) false)
    = dns.RcodeSuccess /\
    dns.Ns (settle world s req (dns.setAnswer (freshReply req) records) false)
    = (if len records =? 0 then [SOA world s] else [])).
  { intros records. unfold settle. cbn [andb].
    change (dns.Answer (dns.setAnswer (freshReply req) records)) with records.
    destruct (len records =? 0); repeat split. }
  assert (Hfetch : fetchFails world (storePath lib q) = false).
  { unfold fetchFails. rewrite Hget. reflexivity. }
  rewrite (ServeDNS_inside_zone lib world s w req q rest st Hq Hin).
  unfold withDefer, resolve. rewrite (proj2 (String.eqb_neq _ _) Hapex).
  unfold addressAnswer.
  replace ((dns.Qtype q =? dns.TypeA) || (dns.Qtype q =? dns.TypeAAAA))%bool with true
    by (destruct Hty as [-> | ->]; reflexivity).
  unfold bind at 1.
  rewrite (AddressRecords_stored lib world s q st (storePath lib q) node)
    by (try assumption; apply questionToPath_storePath).
  unfold bind at 1.
  destruct (RoundRobin s).
  - match goal with |- context [roundRobin world ?rs ?s1] =>
      destruct (roundRobin_quiet world rs s1)
        as (r' & st1 & swaps & -> & Hperm & Hev & _ & _ & Hall) end.
    unfold ret at 1.
    change (dns.Answer (freshReply req) ++ r') with r'.
    rewrite serviceAnswer_run, Hfetch.
    unfold deferred, WriteMsg, emit, addEvents. cbn [idCalls exchangeCalls events] in *.
    eexists r', swaps, _. split; [reflexivity|]. split; [exact Hperm|].
    split; [discriminate|]. split; [exact Hall|].
    cbn [events]. rewrite Hev. split; [|apply Hshape].
    rewrite <- !app_assoc. reflexivity.
  - unfold ret at 1. unfold ret at 1.
    change (dns.Answer (freshReply req) ++ nodeRecords lib node q)
      with (nodeRecords lib node q).
    rewrite serviceAnswer_run, Hfetch.
    unfold deferred, WriteMsg, emit, addEvents. cbn [idCalls exchangeCalls events].
    eexists (nodeRecords lib node q), [], _. split; [reflexivity|].
    split; [reflexivity|]. split; [auto|]. split; [constructor|].
    cbn [events]. split; [|apply Hshape].
    rewrite <- !app_assoc. reflexivity.
Qed.

Lemma ServeDNS_stored_addresses_witness :
  exists st',
    ServeDNS Example.lib Example.oddIdsWorld (Example.srv [] false) Example.udp
             (Example.query 0 "web.skydns.local." dns.TypeA) initState
    = (Return tt, st') /\
    events st'
    = [EvGet "local/skydns/web"; EvGet "local/skydns/web";
       EvWriteMsg (dns.setAnswer
                     (freshReply (Example.query 0 "web.skydns.local." dns.TypeA))
                     [Example.webA 1; Example.webA 2])].
Proof.
  destruct (ServeDNS_stored_addresses
              Example.lib Example.oddIdsWorld (Example.srv [] false) Example.udp
              (Example.query 0 "web.skydns.local." dns.TypeA)
              (dns.mkQuestion "web.skydns.local." dns.TypeA dns.ClassINET) [] initState
              Example.webDir)
    as (records & swaps & st' & Hrun & _ & Hoff & _ & Hev & _).
  - reflexivity.
  - vm_compute. reflexivity.
  - left. reflexivity.
  - vm_compute. discriminate.
  - vm_compute. discriminate.
  - vm_compute. reflexivity.
  - destruct (Hoff eq_refl) as [-> ->]. exists st'. split; [exact Hrun|].
    rewrite Hev. vm_compute. reflexivity.
Defined.

(** The cluster loop panics when it reaches a member whose host is no
    address. *)
Lemma clusterLoop_panics (lib : Lib) (s : server) (q : dns.Question) (bad : string) :
  memberIP lib bad = Some [] ->
  forall members records st,
    In bad members ->
    clusterLoop lib s q records members st = (GoPanic "skydns: internal error", st).
Proof.
  intros Hbad. induction members as [|m rest IH]; intros records st Hin; [contradiction|].
  cbn [clusterLoop]. unfold bind.
  destruct (clusterLoop_outcome lib s q [m] records st) as [[r' Hr] | Hp].
  - cbn [clusterLoop] in Hr. unfold bind in Hr.
    destruct (clusterMember lib s q records m st) as [[r1| |] st1] eqn:Hm;
      try discriminate.
    cbn [ret] in Hr. unfold ret in Hr. inversion Hr; subst.
    destruct Hin as [-> | Hin]; [|apply IH; exact Hin].
    exfalso. unfold clusterMember, memberIP in *.
    destruct (url_Parse lib bad) as [host|]; [|discriminate].
    destruct (net_SplitHostPort lib host) as [h|]; [|discriminate].
    inversion Hbad as [Hip]. rewrite Hip in Hm. cbn in Hm. discriminate.
  - cbn [clusterLoop] in Hp. unfold bind in Hp.
    destruct (clusterMember lib s q records m st) as [[r1| |] st1] eqn:Hm.
    + unfold ret in Hp. discriminate.
    + exact Hp.
    + discriminate.
Qed.

(** X6.  When a cluster member's URL and host parse but its host is no
    IP address ([net.ParseIP] returns nil), an A or AAAA query for the
    apex or [master.<zone>] makes [AddressRecords] panic with
    [skydns: internal error]; the deferred function of [ServeDNS] still
    writes the reply as it was before the call: rcode NOERROR and an
    empty answer section. *)
Theorem ServeDNS_cluster_member_not_an_address (lib : Lib) (world : World) (s : server)
        (w : ResponseWriter) (req : dns.Msg) (q : dns.Question)
        (rest : list dns.Question) (st : State) (bad : string) :
  dns.Questions req = q :: rest ->
  GoStrings.ToLower (dns.qName q) = domain s \/
  GoStrings.ToLower (dns.qName q) = "master." +:+ domain s ->
  dns.Qtype q = dns.TypeA \/ dns.Qtype q = dns.TypeAAAA ->
  In bad (client_GetCluster world) ->
  memberIP lib bad = Some [] ->
  ServeDNS lib world s w req st
  = (GoPanic "skydns: internal error",
     addEvents st [EvGetCluster; EvWriteMsg (signedReply lib s req (freshReply req))]) /\
  dns.Answer (freshReply req) = [] /\
  dns.Rcode (freshReply req) = dns.RcodeSuccess.
Proof.
  intros Hq Hname Hty Hin Hbad. split; [|split; reflexivity].
  assert (Hzone : GoStrings.HasSuffix (GoStrings.ToLower (dns.qName q)) (domain s) = true).
  { destruct Hname as [-> | ->]; [apply (HasSuffix_app "" (domain s)) | apply HasSuffix_app]. }
  rewrite (ServeDNS_inside_zone lib world s w req q rest st Hq Hzone).
  assert (Haddr : addressAnswer lib world s q req (freshReply req) st
                  = (GoPanic "skydns: internal error", addEvents st [EvGetCluster])).
  { unfold addressAnswer.
    replace ((dns.Qtype q =? dns.TypeA) || (dns.Qtype q =? dns.TypeAAAA))%bool with true
      by (destruct Hty as [-> | ->]; reflexivity).
    unfold bind at 1. rewrite (AddressRecords_cluster lib world s q st Hname).
    unfold bind at 1. rewrite (clusterLoop_panics lib s q bad Hbad) by exact Hin.
    reflexivity. }
  assert (Hk : (dns.Qtype q =? dns.TypeDNSKEY) = false)
    by (destruct Hty as [-> | ->]; reflexivity).
  assert (Hs : (dns.Qtype q =? dns.TypeSOA) = false)
    by (destruct Hty as [-> | ->]; reflexivity).
  unfold withDefer, resolve. rewrite Hk, Hs.
  destruct (String.eqb _ (domain s)); rewrite Haddr;
    unfold deferred, WriteMsg, emit, addEvents;
    cbn [fst snd idCalls exchangeCalls events]; rewrite <- app_assoc; reflexivity.
Qed.

Lemma ServeDNS_cluster_member_not_an_address_witness :
  ServeDNS Example.lib
           (Example.world Example.emptyStore
                          ["http://10.0.0.1:4001"; "http://etcd-2.local:4001"]
                          (fun _ => 0) Example.noUpstream)
           (Example.srv [] false) Example.udp
           (Example.query 7 "skydns.local." dns.TypeA) initState
  = (GoPanic "skydns: internal error",
     mkState 0 0 [EvGetCluster;
                  EvWriteMsg (freshReply (Example.query 7 "skydns.local." dns.TypeA))]).
Proof.
  apply (ServeDNS_cluster_member_not_an_address
           Example.lib
           (Example.world Example.emptyStore
                          ["http://10.0.0.1:4001"; "http://etcd-2.local:4001"]
                          (fun _ => 0) Example.noUpstream)
           (Example.srv [] false) Example.udp
           (Example.query 7 "skydns.local." dns.TypeA)
           (dns.mkQuestion "skydns.local." dns.TypeA dns.ClassINET) [] initState
           "http://etcd-2.local:4001").
  - reflexivity.
  - left. reflexivity.
  - left. reflexivity.
  - right. left. reflexivity.
  - vm_compute. reflexivity.
Defined.

Lemma To16_of_16 (ip : net.IP) : length ip = 16%nat -> net.notNil (net.To16 ip) = true.
Proof.
  intros H. unfold net.To16, net.IPv4len, net.IPv6len. rewrite H. cbn.
  destruct ip; [discriminate H | reflexivity].
Qed.

Lemma clusterLoop_records (lib : Lib) (s : server) (q : dns.Question) :
  forall members records st,
    (forall m ip, In m members -> memberIP lib m = Some ip -> length ip = 16%nat) ->
    clusterLoop lib s q records members st
    = (Return (records ++ clusterRecords lib s q members), st).
Proof.
  induction members as [|m rest IH]; intros records st Hwf.
  - cbn. rewrite app_nil_r. reflexivity.
  - cbn [clusterLoop clusterRecords flat_map]. unfold bind.
    fold (clusterRecords lib s q rest).
    pose proof (Hwf m) as Hm. unfold memberIP in *. unfold clusterMember.
    destruct (url_Parse lib m) as [host|];
      [|unfold ret; rewrite IH by (intros; eapply Hwf; [right|]; eassumption); reflexivity].
    destruct (net_SplitHostPort lib host) as [h|];
      [|unfold ret; rewrite IH by (intros; eapply Hwf; [right|]; eassumption); reflexivity].
    specialize (Hm _ (or_introl eq_refl) eq_refl).
    unfold clusterRecord.
    destruct (_ && _)%bool.
    + unfold ret. rewrite IH by (intros; eapply Hwf; [right|]; eassumption).
      rewrite <- app_assoc. reflexivity.
    + rewrite (To16_of_16 _ Hm). unfold ret.
      rewrite IH by (intros; eapply Hwf; [right|]; eassumption).
      rewrite <- app_assoc. reflexivity.
Qed.

(** X7.  For the apex and [master.<zone>], when every cluster member
    that parses has a 16-byte address, [AddressRecords] returns without
    error, after [GetCluster] as the only event: one record per member
    that parses, in member order, the members whose URL or host:port
    does not parse being skipped.  For a query type other than A every
    record is an AAAA record, also for an IPv4 member; every record has
    the name as queried and the TTL of the server. *)
Theorem AddressRecords_cluster_records (lib : Lib) (world : World) (s : server)
        (q : dns.Question) (st : State) :
  GoStrings.ToLower (dns.qName q) = domain s \/
  GoStrings.ToLower (dns.qName q) = "master." +:+ domain s ->
  (forall m ip, In m (client_GetCluster world) -> memberIP lib m = Some ip ->
                length ip = 16%nat) ->
  AddressRecords lib world s q st
  = (Return (clusterRecords lib s q (client_GetCluster world), None),
     addEvents st [EvGetCluster]) /\
  (dns.Qtype q <> dns.TypeA ->
   Forall (fun r => dns.Rrtype (dns.Header r) = dns.TypeAAAA)
          (clusterRecords lib s q (client_GetCluster world))) /\
  Forall (fun r => dns.Name (dns.Header r) = dns.qName q /\ dns.Ttl (dns.Header r) = Ttl s)
         (clusterRecords lib s q (client_GetCluster world)).
Proof.
  intros Hname Hwf. split; [|split].
  - rewrite (AddressRecords_cluster lib world s q st Hname). unfold bind.
    rewrite clusterLoop_records by exact Hwf. reflexivity.
  - intros Hty. unfold clusterRecords. apply Forall_flat_map, Forall_forall.
    intros m _. destruct (memberIP lib m) as [ip|]; [|constructor].
    unfold clusterRecord. rewrite (proj2 (Z.eqb_neq _ _) Hty), andb_false_r.
    repeat constructor.
  - unfold clusterRecords. apply Forall_flat_map, Forall_forall.
    intros m _. destruct (memberIP lib m) as [ip|]; [|constructor].
    unfold clusterRecord. destruct (_ && _)%bool; repeat constructor.
Qed.

Lemma AddressRecords_cluster_records_witness :
  AddressRecords Example.lib
                 (Example.world Example.emptyStore
                                ["http://10.0.0.1:4001"; "no-url"; "http://[2001:db8::1]:4001"]
                                (fun _ => 0) Example.noUpstream)
                 (Example.srv [] true)
                 (dns.mkQuestion "skydns.local." dns.TypeAAAA dns.ClassINET) initState
  = (Return ([dns.AAAA (Example.hdrAAAA "skydns.local." 3600) (net.IPv4 10 0 0 1);
              dns.AAAA (Example.hdrAAAA "skydns.local." 3600) Example.ip6],
             None),
     mkState 0 0 [EvGetCluster]).
Proof.
  apply (proj1 (AddressRecords_cluster_records
                  Example.lib
                  (Example.world Example.emptyStore
                     ["http://10.0.0.1:4001"; "no-url"; "http://[2001:db8::1]:4001"]
                     (fun _ => 0) Example.noUpstream)
                  (Example.srv [] true)
                  (dns.mkQuestion "skydns.local." dns.TypeAAAA dns.ClassINET) initState
                  (or_introl eq_refl)
                  ltac:(intros m ip [<- | [<- | [<- | []]]] H; vm_compute in H;
                        inversion H; reflexivity))).
Defined.

(** X8.  A stored leaf whose key is all in lower case gives no record:
    the key is tested for the upper-case suffixes [/A] and [/AAAA], so
    [AddressRecords] returns an empty record set, without error. *)
Theorem AddressRecords_lower_case_leaf (lib : Lib) (world : World) (s : server)
        (q : dns.Question) (st : State) (node : etcd.Node) :
  GoStrings.ToLower (dns.qName q) <> domain s ->
  GoStrings.ToLower (dns.qName q) <> "master." +:+ domain s ->
  client_Get world (storePath lib q) = inl node ->
  etcd.Dir node = false ->
  GoStrings.ToLower (etcd.Key node) = etcd.Key node ->
  nodeRecords lib node q = [] /\
  fst (AddressRecords lib world s q st) = Return ([], None).
Proof.
  intros Hapex Hmaster Hget Hleaf Hlow.
  assert (Hnone : nodeRecords lib node q = []).
  { unfold nodeRecords. rewrite Hleaf. cbn [negb].
    destruct (lower_key_no_suffix _ Hlow) as [-> ->]. reflexivity. }
  split; [exact Hnone|].
  rewrite (AddressRecords_stored lib world s q st (storePath lib q) node)
    by (try assumption; apply questionToPath_storePath).
  rewrite Hnone. unfold bind. destruct (RoundRobin s); reflexivity.
Qed.

Lemma AddressRecords_lower_case_leaf_witness :
  fst (AddressRecords Example.lib
         (Example.world (Example.storeWith "local/skydns/web/a"
                           (Example.leaf "/local/skydns/web/a" "10.0.0.1" 30))
                        [] (fun _ => 0) Example.noUpstream)
         (Example.srv [] true)
         (dns.mkQuestion "A.web.skydns.local." dns.TypeA dns.ClassINET) initState)
  = Return ([], None).
Proof.
  apply (AddressRecords_lower_case_leaf
           Example.lib
           (Example.world (Example.storeWith "local/skydns/web/a"
                             (Example.leaf "/local/skydns/web/a" "10.0.0.1" 30))
                          [] (fun _ => 0) Example.noUpstream)
           (Example.srv [] true)
           (dns.mkQuestion "A.web.skydns.local." dns.TypeA dns.ClassINET) initState
           (Example.leaf "/local/skydns/web/a" "10.0.0.1" 30)).
  - vm_compute. discriminate.
  - vm_compute. discriminate.
  - vm_compute. reflexivity.
  - reflexivity.
  - vm_compute. reflexivity.
Defined.

Lemma loopAddressNodes_app (lib : Lib) (l1 l2 : list etcd.Node) (q : string) (t : Z) :
  loopAddressNodes lib (l1 ++ l2) q t
  = loopAddressNodes lib l1 q t ++ loopAddressNodes lib l2 q t.
Proof.
  induction l1 as [|n l1 IH]; [reflexivity|].
  cbn [app loopAddressNodes]. rewrite IH, app_assoc. reflexivity.
Qed.

Lemma loopAddressNode_records (lib : Lib) (q : string) (t : Z) :
  forall n : etcd.Node,
    Forall (addressRecordOf q t) (loopAddressNode lib n q t) /\
    (t <> dns.TypeA -> t <> dns.TypeAAAA -> loopAddressNode lib n q t = []).
Proof.
  fix IH 1. intros [key value dir ttl nodes]. destruct dir.
  - rewrite loopAddressNode_dir.
    revert nodes. fix IHnodes 1. intros [|n rest].
    + split; [constructor | reflexivity].
    + cbn [loopAddressNodes]. destruct (IH n) as [Hn Hn0].
      destruct (IHnodes rest) as [Hr Hr0]. split.
      * apply Forall_app. split; assumption.
      * intros HA HAAAA. rewrite Hn0, Hr0 by assumption. reflexivity.
  - cbn [loopAddressNode].
    destruct (GoStrings.HasSuffix key "/A" && (t =? dns.TypeA))%bool eqn:HA.
    + apply andb_true_iff in HA as [_ HA]. apply Z.eqb_eq in HA. split.
      * repeat constructor; cbn; auto.
      * intros H. contradiction.
    + destruct (GoStrings.HasSuffix key "/AAAA" && (t =? dns.TypeAAAA))%bool eqn:HAAAA.
      * apply andb_true_iff in HAAAA as [_ HAAAA]. apply Z.eqb_eq in HAAAA. split.
        -- repeat constructor; cbn; auto.
        -- intros _ H. contradiction.
      * split; [constructor | reflexivity].
Qed.

(** X9.  The walk [loopAddressNodes]: every record it returns has the
    name [q], the type [t] and class IN, and is an A record for type A
    and an AAAA record for type AAAA; for any other type it returns no
    record; and a directory contributes the records of its children at
    its own place, between the records of the nodes before and after
    it. *)
Theorem loopAddressNodes_walk (lib : Lib) (q : string) (t : Z) (nodes : list etcd.Node) :
  Forall (addressRecordOf q t) (loopAddressNodes lib nodes q t) /\
  (t <> dns.TypeA -> t <> dns.TypeAAAA -> loopAddressNodes lib nodes q t = []) /\
  (forall before after key value ttl,
     loopAddressNodes lib (before ++ etcd.mkNode key value true ttl nodes :: after) q t
     = loopAddressNodes lib before q t ++ loopAddressNodes lib nodes q t
         ++ loopAddressNodes lib after q t).
Proof.
  split; [|split].
  - induction nodes as [|n rest IH]; [constructor|].
    cbn [loopAddressNodes]. apply Forall_app. split; [|exact IH].
    apply loopAddressNode_records.
  - intros HA HAAAA. induction nodes as [|n rest IH]; [reflexivity|].
    cbn [loopAddressNodes]. rewrite IH.
    rewrite (proj2 (loopAddressNode_records lib q t n)) by assumption. reflexivity.
  - intros before after key value ttl. rewrite loopAddressNodes_app.
    cbn [loopAddressNodes]. rewrite loopAddressNode_dir. reflexivity.
Qed.

Lemma string_app_assoc (a b c : string) : (a +:+ b) +:+ c = a +:+ b +:+ c.
Proof.
  induction a as [|x a IH]; [reflexivity|].
  change (String x a +:+ b) with (String x (a +:+ b)).
  change (String x ?u +:+ ?v) with (String x (u +:+ v)). f_equal. exact IH.
Qed.

Lemma Join_ends_with_last (l : list string) (last : string) :
  GoStrings.HasSuffix (GoStrings.Join (l ++ [last]) "/") last = true.
Proof.
  unfold GoStrings.Join. induction l as [|x l IH].
  - apply (HasSuffix_app "" last).
  - destruct (HasSuffix_inv _ _ IH) as [pre Hpre].
    cbn [app String.concat]. destruct (l ++ [last]) as [|y r] eqn:Hl.
    + destruct l; discriminate Hl.
    + rewrite Hpre, <- !string_app_assoc. apply HasSuffix_app.
Qed.

(** X10.  [questionToPath] always returns (the reversal loop ends within
    its fuel): the labels of the name in reverse order, joined by [/];
    the empty path for a name without labels; and the path ends with the
    first label of the name. *)
Theorem questionToPath_joins_reversed_labels (lib : Lib) (s : string) :
  exists path,
    questionToPath lib s = Some path /\
    path = GoStrings.Join (reverse (dns_SplitDomainName lib s)) "/" /\
    (dns_SplitDomainName lib s = [] -> path = "") /\
    (forall first rest, dns_SplitDomainName lib s = first :: rest ->
       GoStrings.HasSuffix path first = true).
Proof.
  eexists. split; [apply questionToPath_reverse|]. split; [reflexivity|]. split.
  - intros ->. reflexivity.
  - intros first rest ->. rewrite reverse_cons. apply Join_ends_with_last.
Qed.

Lemma upstreamAt_In (s : server) (nsid : Z) :
  0 <= nsid < len (nameservers s) -> In (upstreamAt s nsid) (nameservers s).
Proof.
  intros H. pose proof (upstreamAt_lookup s nsid H) as Hl.
  destruct (Z.leb_spec 0 nsid); [|lia].
  apply list_elem_of_In. eapply list_elem_of_lookup_2. exact Hl.
Qed.

(** Exchanges over one network with configured nameservers. *)
Lemma forwardRedo_bounded (world : World) (s : server) (network : string) (req : dns.Msg) :
  dns.Questions req <> [] ->
  forall fuel nsid try st,
    0 <= nsid < len (nameservers s) ->
    0 <= try <= len (nameservers s) ->
    len (nameservers s) - try < Z.of_nat fuel ->
    exists st' exch m,
      forwardRedo world fuel s network req nsid try st = (Return tt, st') /\
      events st' = events st ++ exch ++ [EvWriteMsg m] /\
      len exch <= len (nameservers s) - try + 1 /\
      Forall (fun e => exists addr, e = EvExchange network addr /\ In addr (nameservers s))
             exch /\
      idCalls st' = idCalls st /\
      exchangeCalls st' = (exchangeCalls st + length exch)%nat /\
      (m = exhaustedReply req \/
       exists k addr, client_Exchange world k network addr = Some m).
Proof.
  intros Hq.
  induction fuel as [|fuel IH]; intros nsid try st Hns Htry Hfuel; [lia|].
  rewrite forwardRedo_step by exact Hns. cbn zeta.
  pose proof (upstreamAt_In s nsid Hns) as Hin.
  destruct (client_Exchange _ _ _ _) as [r|] eqn:Hex.
  - rewrite forwarded_question by exact Hq.
    eexists _, [_], r. unfold WriteMsg, emit. cbn [idCalls exchangeCalls events].
    rewrite <- app_assoc.
    split; [reflexivity|]. split; [reflexivity|].
    split; [unfold len in *; cbn [length]; lia|].
    split; [repeat constructor; eauto|]. split; [reflexivity|].
    split; [cbn [exchangeCalls idCalls events length] in *; lia|]. right. eauto.
  - destruct (Z.ltb_spec try (len (nameservers s))).
    + match goal with |- context [forwardRedo world fuel s network req ?n ?t ?s1] =>
        destruct (IH n t s1) as (st' & exch & m & Hrun & Hev & Hlen & Hall & Hids & Hcalls & Hm)
      end.
      { apply Z.mod_pos_bound. lia. } { lia. } { lia. }
      eexists st', (_ :: exch), m. split; [exact Hrun|].
      cbn [events idCalls exchangeCalls] in Hev, Hids, Hcalls.
      rewrite Hev, <- app_assoc.
      split; [reflexivity|]. split; [unfold len in *; cbn [length]; lia|].
      split; [constructor; [eauto | exact Hall]|]. split; [exact Hids|].
      split; [cbn [length]; lia | exact Hm].
    + eexists _, [_], _. unfold WriteMsg, emit. cbn [idCalls exchangeCalls events].
      rewrite <- app_assoc.
      split; [reflexivity|]. split; [reflexivity|].
      split; [unfold len in *; cbn [length]; lia|].
      split; [repeat constructor; eauto|]. split; [reflexivity|].
      split; [cbn [exchangeCalls idCalls events length] in *; lia|]. left. reflexivity.
Qed.

(** X11.  For a request with a question and any behaviour of the
    upstream servers, [ServeDNSForward] returns after at most one
    exchange more than there are nameservers,
    each over the network of the request (tcp for a TCP peer, udp
    otherwise) and with a configured nameserver, followed by exactly one
    written message; the message is an upstream reply as received, or
    the SERVFAIL reply built from the request; without nameservers there
    is no exchange.  No id is drawn. *)
Theorem ServeDNSForward_bounded (world : World) (s : server) (w : ResponseWriter)
        (req : dns.Msg) (st : State) :
  dns.Questions req <> [] ->
  0 <= dns.Id req ->
  exists st' exch m,
    ServeDNSForward world s w req st = (Return tt, st') /\
    events st' = events st ++ exch ++ [EvWriteMsg m] /\
    (nameservers s = [] -> exch = [] /\ m = noServersReply req) /\
    (length exch <= S (length (nameservers s)))%nat /\
    Forall (fun e => exists addr, e = EvExchange (networkOf w) addr /\
                                  In addr (nameservers s)) exch /\
    idCalls st' = idCalls st /\
    exchangeCalls st' = (exchangeCalls st + length exch)%nat /\
    (m = noServersReply req \/ m = exhaustedReply req \/
     exists k addr, client_Exchange world k (networkOf w) addr = Some m).
Proof.
  intros Hq Hid. unfold ServeDNSForward. fold (networkOf w).
  destruct (Z.eqb_spec (len (nameservers s)) 0) as [H0|H0].
  - eexists _, [], _. unfold WriteMsg, emit. cbn [idCalls exchangeCalls events length].
    split; [reflexivity|]. split; [reflexivity|]. split; [auto|].
    split; [lia|]. split; [constructor|]. split; [reflexivity|].
    split; [cbn [exchangeCalls length]; lia | left; reflexivity].
  - destruct (forwardRedo_bounded world s (networkOf w) req Hq
                (S (length (nameservers s)))
                (Z.rem (dns.Id req) (len (nameservers s))) 0 st)
      as (st' & exch & m & Hrun & Hev & Hlen & Hall & Hids & Hcalls & Hm).
    { apply rem_range; [exact Hid | unfold len in *; lia]. }
    { unfold len. lia. } { unfold len. lia. }
    exists st', exch, m. split; [exact Hrun|]. split; [exact Hev|].
    split; [intros Hnil; rewrite Hnil in H0; contradiction H0; reflexivity|].
    split; [unfold len in Hlen; lia|]. split; [exact Hall|]. split; [exact Hids|].
    split; [exact Hcalls | right; exact Hm].
Qed.

Lemma ServeDNSForward_bounded_witness :
  exists st' exch m,
    ServeDNSForward (Example.world Example.emptyStore [] (fun _ => 0) Example.noUpstream)
                    (Example.srv ["8.8.8.8:53"; "8.8.4.4:53"] false) (mkWriter true)
                    (Example.query 7 "example.com." dns.TypeA) initState
    = (Return tt, st') /\
    events st' = events initState ++ exch ++ [EvWriteMsg m] /\
    (length exch <= 3)%nat.
Proof.
  destruct (ServeDNSForward_bounded
              (Example.world Example.emptyStore [] (fun _ => 0) Example.noUpstream)
              (Example.srv ["8.8.8.8:53"; "8.8.4.4:53"] false) (mkWriter true)
              (Example.query 7 "example.com." dns.TypeA) initState)
    as (st' & exch & m & Hrun & Hev & _ & Hlen & _).
  - discriminate.
  - vm_compute. discriminate.
  - exists st', exch, m. split; [exact Hrun|]. split; [exact Hev | exact Hlen].
Defined.

(** Witnesses for the two lemmas on the order of the exchanges. *)
Lemma ServeDNSForward_all_fail_witness :
  ServeDNSForward (Example.world Example.emptyStore [] (fun _ => 0) Example.noUpstream)
                  (Example.srv ["a:53"; "b:53"; "c:53"] false) (mkWriter true)
                  (Example.query 5 "example.com." dns.TypeA) initState
  = (Return tt,
     mkState 0 4
             [EvExchange "tcp" "c:53"; EvExchange "tcp" "a:53";
              EvExchange "tcp" "b:53"; EvExchange "tcp" "c:53";
              EvWriteMsg (exhaustedReply (Example.query 5 "example.com." dns.TypeA))]).
Proof.
  apply (ServeDNSForward_all_fail
           (Example.world Example.emptyStore [] (fun _ => 0) Example.noUpstream)
           (Example.srv ["a:53"; "b:53"; "c:53"] false) (mkWriter true)
           (Example.query 5 "example.com." dns.TypeA) initState).
  - discriminate.
  - vm_compute. discriminate.
  - intros i _. reflexivity.
Defined.

Lemma ServeDNSForward_first_success_witness :
  ServeDNSForward (Example.world Example.emptyStore [] (fun _ => 0)
                     (fun k _ _ => if (k =? 1)%nat then Some dns.newMsg else None))
                  (Example.srv ["a:53"; "b:53"; "c:53"] false) Example.udp
                  (Example.query 5 "example.com." dns.TypeA) initState
  = (Return tt,
     mkState 0 2
             [EvExchange "udp" "c:53"; EvExchange "udp" "a:53"; EvWriteMsg dns.newMsg]).
Proof.
  apply (ServeDNSForward_first_success
           (Example.world Example.emptyStore [] (fun _ => 0)
              (fun k _ _ => if (k =? 1)%nat then Some dns.newMsg else None))
           (Example.srv ["a:53"; "b:53"; "c:53"] false) Example.udp
           (Example.query 5 "example.com." dns.TypeA) dns.newMsg initState 1).
  - discriminate.
  - discriminate.
  - vm_compute. discriminate.
  - cbn. lia.
  - intros i Hi. assert (i = 0%nat) as -> by lia. reflexivity.
  - reflexivity.
Defined.

Lemma questionToPath_round_trip_witness :
  reverse (GoStrings.Split "local/skydns/staging/service" "/")
  = Example.SplitDomainName "service.staging.skydns.local.".
Proof.
  apply (questionToPath_round_trip Example.lib "service.staging.skydns.local."
                                   "local/skydns/staging/service").
  - vm_compute. discriminate.
  - vm_compute. repeat constructor.
  - vm_compute. reflexivity.
Defined.

(** ** The letter case of the zone *)

Lemma ToLower_length (s : string) : String.length (GoStrings.ToLower s) = String.length s.
Proof.
  induction s as [|c s IH]; [reflexivity|].
  cbn [GoStrings.ToLower String.length]. rewrite IH. reflexivity.
Qed.

Lemma app_inv_by_length (a b c d : string) :
  a +:+ b = c +:+ d -> String.length b = String.length d -> b = d.
Proof.
  intros Heq Hlen.
  assert (Ha : String.length a = String.length c).
  { apply (f_equal String.length) in Heq. rewrite !length_app in Heq. lia. }
  rewrite <- (substring_skip a b), <- (substring_skip c d), Heq, Ha, Hlen.
  reflexivity.
Qed.

(** A suffix of a lower-cased name is in lower case. *)
Lemma HasSuffix_ToLower_lower (name d : string) :
  GoStrings.HasSuffix (GoStrings.ToLower name) d = true -> GoStrings.ToLower d = d.
Proof.
  intros H. apply HasSuffix_inv in H as [prefix Hp].
  pose proof (ToLower_idem name) as Hi. rewrite Hp, ToLower_app in Hi.
  apply app_inv_by_length in Hi; [exact Hi|]. apply ToLower_length.
Qed.

(** X12.  A zone that is not in lower case matches no name: the name
    of the question is lower-cased before the suffix test, so with such
    a [s.domain] every request is forwarded. *)
Theorem ServeDNS_zone_not_lower_case_forwards (lib : Lib) (world : World) (s : server)
        (w : ResponseWriter) (req : dns.Msg) (q : dns.Question)
        (rest : list dns.Question) (st : State) :
  dns.Questions req = q :: rest ->
  GoStrings.ToLower (domain s) <> domain s ->
  GoStrings.HasSuffix (GoStrings.ToLower (dns.qName q)) (domain s) = false /\
  ServeDNS lib world s w req st = ServeDNSForward world s w req st.
Proof.
  intros Hq Hcase.
  assert (Hout : GoStrings.HasSuffix (GoStrings.ToLower (dns.qName q)) (domain s) = false).
  { destruct (GoStrings.HasSuffix _ _) eqn:H; [|reflexivity].
    contradiction Hcase. eapply HasSuffix_ToLower_lower, H. }
  split; [exact Hout|]. unfold ServeDNS. rewrite Hq, Hout. reflexivity.
Qed.

Lemma ServeDNS_zone_not_lower_case_forwards_witness :
  ServeDNS Example.lib
           (Example.world Example.emptyStore [] (fun _ => 0) Example.noUpstream)
           (mkServer [] "SkyDNS.local." None false 3600 60) Example.udp
           (Example.query 7 "SkyDNS.local." dns.TypeSOA) initState
  = (Return tt,
     addEvents initState
               [EvWriteMsg (noServersReply (Example.query 7 "SkyDNS.local." dns.TypeSOA))]).
Proof.
  rewrite (proj2 (ServeDNS_zone_not_lower_case_forwards
             Example.lib
             (Example.world Example.emptyStore [] (fun _ => 0) Example.noUpstream)
             (mkServer [] "SkyDNS.local." None false 3600 60) Example.udp
             (Example.query 7 "SkyDNS.local." dns.TypeSOA)
             (dns.mkQuestion "SkyDNS.local." dns.TypeSOA dns.ClassINET) [] initState
             eq_refl ltac:(vm_compute; discriminate))).
  reflexivity.
Defined.

(** ** [NewServer] *)

(** X13.  A server made by [NewServer] (for a domain on which
    [dns.Fqdn] commutes with lower-casing) has the zone in lower case
    and the nameservers as given, and answers the SOA query for its
    domain, asked in any letter case, with one unsigned reply that holds
    the SOA record of the lower-cased zone with TTL 3600 and minimum
    60. *)
Theorem NewServer_answers_apex_SOA (dns_Fqdn : string -> string) (lib : Lib)
        (world : World) (d : string) (ns : list string) (w : ResponseWriter)
        (req : dns.Msg) (q : dns.Question) (rest : list dns.Question) (st : State) :
  dns_Fqdn (GoStrings.ToLower d) = GoStrings.ToLower (dns_Fqdn d) ->
  dns.Questions req = q :: rest ->
  GoStrings.ToLower (dns.qName q) = GoStrings.ToLower (dns_Fqdn d) ->
  dns.Qtype q = dns.TypeSOA ->
  let zone := GoStrings.ToLower (dns_Fqdn d) in
  ServeDNS lib world (NewServer dns_Fqdn d ns) w req st
  = (Return tt,
     addEvents st
       [EvWriteMsg
          (dns.setAnswer (freshReply req)
             [dns.SOA (dns.mkHeader zone dns.TypeSOA dns.ClassINET 3600)
                      ("master." +:+ zone) ("hostmaster." +:+ zone)
                      (uint32 (truncateHour (time_Now world)))
                      28800 7200 604800 60])]) /\
  GoStrings.ToLower (domain (NewServer dns_Fqdn d ns)) = domain (NewServer dns_Fqdn d ns) /\
  nameservers (NewServer dns_Fqdn d ns) = ns.
Proof.
  intros Hfq Hq Hname Hty zone.
  assert (Hdom : domain (NewServer dns_Fqdn d ns) = zone) by exact Hfq.
  split; [|split; [|reflexivity]].
  - assert (Hin : GoStrings.HasSuffix (GoStrings.ToLower (dns.qName q))
                                      (domain (NewServer dns_Fqdn d ns)) = true).
    { rewrite Hdom, Hname. apply (HasSuffix_app "" zone). }
    rewrite (ServeDNS_inside_zone lib world _ w req q rest st Hq Hin).
    unfold withDefer, resolve. rewrite Hdom, Hname, String.eqb_refl, Hty.
    cbn [Z.eqb dns.TypeSOA dns.TypeDNSKEY Pos.eqb]. unfold SOA, SOAat.
    rewrite Hdom. reflexivity.
  - rewrite Hdom. apply ToLower_idem.
Qed.

Lemma NewServer_answers_apex_SOA_witness :
  ServeDNS Example.lib
           (Example.world Example.emptyStore [] (fun _ => 0) Example.noUpstream)
           (NewServer exampleFqdn "SkyDNS.Local" ["8.8.8.8:53"]) Example.udp
           (Example.query 7 "SKYDNS.local." dns.TypeSOA) initState
  = (Return tt,
     addEvents initState
       [EvWriteMsg
          (dns.setAnswer (freshReply (Example.query 7 "SKYDNS.local." dns.TypeSOA))
             [dns.SOA (dns.mkHeader "skydns.local." dns.TypeSOA dns.ClassINET 3600)
                      "master.skydns.local." "hostmaster.skydns.local."
                      (uint32 (truncateHour
                         (time_Now (Example.world Example.emptyStore [] (fun _ => 0)
                                                  Example.noUpstream))))
                      28800 7200 604800 60])]).
Proof.
  apply (proj1 (NewServer_answers_apex_SOA exampleFqdn Example.lib
           (Example.world Example.emptyStore [] (fun _ => 0) Example.noUpstream)
           "SkyDNS.Local" ["8.8.8.8:53"] Example.udp
           (Example.query 7 "SKYDNS.local." dns.TypeSOA)
           (dns.mkQuestion "SKYDNS.local." dns.TypeSOA dns.ClassINET) [] initState
           eq_refl eq_refl eq_refl eq_refl)).
Defined.

(** ** The forwarder and a request without a question *)

(** X17.  For a request without a question, a successful exchange makes
    [ServeDNSForward] panic: the log line of the success branch reads
    [req.Question[0].Name], an index out of range, before [w.WriteMsg(r)].
    The forwarder has made the exchanges up to the successful one, and
    nothing is written: the upstream's reply is lost. *)
Theorem ServeDNSForward_without_question_panics (world : World) (s : server)
        (w : ResponseWriter) (req r : dns.Msg) (st : State) (k : nat) :
  dns.Questions req = [] ->
  nameservers s <> [] ->
  0 <= dns.Id req ->
  (k <= length (nameservers s))%nat ->
  (forall i, (i < k)%nat ->
     client_Exchange world (exchangeCalls st + i) (networkOf w)
                     (upstreamAt s (dns.Id req + Z.of_nat i)) = None) ->
  client_Exchange world (exchangeCalls st + k) (networkOf w)
                  (upstreamAt s (dns.Id req + Z.of_nat k)) = Some r ->
  ServeDNSForward world s w req st
  = (GoPanic "runtime error: index out of range",
     mkState (idCalls st) (exchangeCalls st + S k)
             (events st ++ attempts (networkOf w) s (dns.Id req) (S k))) /\
  Forall (fun e => isEvExchange e = true) (attempts (networkOf w) s (dns.Id req) (S k)).
Proof.
  intros Hq Hns Hid Hk Hfail Hok. split; [|apply attempts_exchanges].
  rewrite (ServeDNSForward_unfold world s w req st k) by assumption.
  cbn zeta. rewrite Hok. apply forwarded_no_question. exact Hq.
Qed.

(** A request without a question, sent to three nameservers of which the
    second one asked answers. *)
Lemma ServeDNSForward_without_question_panics_witness :
  ServeDNSForward (Example.world Example.emptyStore [] (fun _ => 0)
                     (fun k _ _ => if (k =? 1)%nat then Some dns.newMsg else None))
                  (Example.srv ["a:53"; "b:53"; "c:53"] false) Example.udp
                  dns.newMsg initState
  = (GoPanic "runtime error: index out of range",
     mkState 0 2 [EvExchange "udp" "a:53"; EvExchange "udp" "b:53"]).
Proof.
  apply (proj1 (ServeDNSForward_without_question_panics
           (Example.world Example.emptyStore [] (fun _ => 0)
              (fun k _ _ => if (k =? 1)%nat then Some dns.newMsg else None))
           (Example.srv ["a:53"; "b:53"; "c:53"] false) Example.udp
           dns.newMsg dns.newMsg initState 1
           eq_refl ltac:(discriminate) ltac:(vm_compute; discriminate)
           ltac:(cbn; lia)
           ltac:(intros i Hi; assert (i = 0%nat) as -> by lia; reflexivity)
           eq_refl)).
Defined.
